(** * TMF8805 time-of-flight sensor driver (tmf8805/tmf8805.py)

    A shallow embedding of the MicroPython driver class [TMF8805] and the
    properties of its register protocol: result decoding, bounded polling
    loops, calibration transfer and status decoding.

    The file is organised as follows.
    - [Py]: the Python built-ins the driver relies on ([int(s, 0)],
      [int(s, 2)], [bin], [str], [bytes.fromhex], [int.from_bytes], string
      slicing), written as total functions returning [option] where Python
      raises [ValueError];
    - the module-level constants of tmf8805.py, kept as the hex strings the
      source uses;
    - the collaborators (I2C bus, watchdog, clock, pin, standard output) as
      a history of events and an environment that answers from the
      history, and a small monad for computations over them;
    - the methods of class [TMF8805];
    - [Mock]: the fixtures of the test suite;
    - the vocabulary of the statements, then the lemmas and theorems. *)

From Stdlib Require Import ZArith List String Ascii Bool Lia.
From Stdlib.Strings Require Import Byte.
From Stdlib Require Import DecimalString.
Import ListNotations.

Local Open Scope string_scope.
Local Open Scope list_scope.
Local Open Scope Z_scope.

(** A Python [bytes] object. *)
Definition bytes := list byte.

Definition Z_of_byte (b : byte) : Z := Z.of_N (Byte.to_N b).

(* ================================================================== *)
(** ** Python built-ins *)
(* ================================================================== *)

Module Py.

(** Value of a character as a digit, for bases up to 36. *)
Definition digit_value (c : ascii) : option Z :=
  let n := Z.of_N (N_of_ascii c) in
  if (48 <=? n) && (n <=? 57) then Some (n - 48)
  else if (97 <=? n) && (n <=? 122) then Some (n - 87)
  else if (65 <=? n) && (n <=? 90) then Some (n - 55)
  else None.

(** Reads the digits of [s] in [base], most significant first, onto the
    accumulator [acc]; [None] on a character that is no digit of the base. *)
Fixpoint digits_acc (base : Z) (s : string) (acc : Z) : option Z :=
  match s with
  | EmptyString => Some acc
  | String c rest =>
      match digit_value c with
      | Some d => if d <? base then digits_acc base rest (acc * base + d)
                  else None
      | None => None
      end
  end.

(** A non-empty run of digits. *)
Definition digits (base : Z) (s : string) : option Z :=
  match s with
  | EmptyString => None
  | _ => digits_acc base s 0
  end.

Fixpoint all_zero (s : string) : bool :=
  match s with
  | EmptyString => true
  | String c rest => Ascii.eqb c "0" && all_zero rest
  end.

(** [int(s, 0)]: the base is taken from the literal's prefix.  Modelled on
    unsigned literals without surrounding blanks or digit separators (the
    only ones the driver uses); [None] stands for [ValueError]. *)
Definition int0 (s : string) : option Z :=
  match s with
  | String "0" (String "x" rest) | String "0" (String "X" rest) => digits 16 rest
  | String "0" (String "o" rest) | String "0" (String "O" rest) => digits 8 rest
  | String "0" (String "b" rest) | String "0" (String "B" rest) => digits 2 rest
  | String "0" rest => if all_zero rest then Some 0 else None
  | _ => digits 10 s
  end.

(** [int(s, 2)], on the same fragment: an optional [0b] prefix, then binary
    digits. *)
Definition int2 (s : string) : option Z :=
  match s with
  | String "0" (String "b" rest) | String "0" (String "B" rest) => digits 2 rest
  | _ => digits 2 s
  end.

(** Binary digits of a positive number, most significant first. *)
Fixpoint bin_pos (p : positive) : string :=
  match p with
  | xH => "1"
  | xO q => (bin_pos q ++ "0")%string
  | xI q => (bin_pos q ++ "1")%string
  end.

(** [bin(n)]. *)
Definition bin (n : Z) : string :=
  match n with
  | Z0 => "0b0"
  | Zpos p => ("0b" ++ bin_pos p)%string
  | Zneg p => ("-0b" ++ bin_pos p)%string
  end.

(** [str(n)] and the f-string conversion [f"{n}"] of an integer. *)
Definition str (n : Z) : string := NilZero.string_of_int (Z.to_int n).

(** [s[n:]]. *)
Fixpoint drop (n : nat) (s : string) : string :=
  match n, s with
  | O, _ => s
  | S k, EmptyString => EmptyString
  | S k, String _ rest => drop k rest
  end.

(** [s[:n]]. *)
Fixpoint take (n : nat) (s : string) : string :=
  match n, s with
  | O, _ => EmptyString
  | S k, EmptyString => EmptyString
  | S k, String c rest => String c (take k rest)
  end.

(** [s[i:j]] for [0 <= i <= j]. *)
Definition slice (i j : nat) (s : string) : string := take (j - i) (drop i s).

(** [c * n] for a string [c]; empty when [n <= 0]. *)
Definition repeat_str (c : string) (n : Z) : string :=
  Nat.iter (Z.to_nat n) (fun acc => (c ++ acc)%string) "".

(** ["".join(reversed(s))]. *)
Fixpoint reversed (s : string) : string :=
  match s with
  | EmptyString => EmptyString
  | String c rest => (reversed rest ++ String c EmptyString)%string
  end.

Definition len (s : string) : Z := Z.of_nat (String.length s).

(** [s.startswith(p)]. *)
Definition startswith (p s : string) : bool := String.prefix p s.

Definition byte_of_Z (z : Z) : option byte := Byte.of_N (Z.to_N z).

(** [bytes.fromhex(s)]: two hexadecimal digits per byte; [None] stands for
    [ValueError] (a character that is no hexadecimal digit, or an odd number
    of digits).  CPython also skips blanks between bytes; the driver never
    builds a string with blanks. *)
Fixpoint fromhex (s : string) : option bytes :=
  match s with
  | EmptyString => Some []
  | String _ EmptyString => None
  | String hi (String lo rest) =>
      match digit_value hi, digit_value lo with
      | Some h, Some l =>
          if (h <? 16) && (l <? 16) then
            match byte_of_Z (16 * h + l), fromhex rest with
            | Some b, Some bs => Some (b :: bs)
            | _, _ => None
            end
          else None
      | _, _ => None
      end
  end.

(** [sys.byteorder]. *)
Inductive byteorder := little | big.

Definition from_bytes_little (bs : bytes) : Z :=
  fold_right (fun b acc => Z_of_byte b + 256 * acc) 0 bs.

Definition from_bytes_big (bs : bytes) : Z :=
  fold_left (fun acc b => acc * 256 + Z_of_byte b) bs 0.

(** [int.from_bytes(bs, order)], unsigned. *)
Definition from_bytes (bs : bytes) (order : byteorder) : Z :=
  match order with
  | little => from_bytes_little bs
  | big => from_bytes_big bs
  end.

End Py.

(* ================================================================== *)
(** ** Module-level constants of tmf8805.py *)
(* ================================================================== *)

Definition DEFAULT_I2C_ADDR := "0x41".
Definition CPU_READY_TIMEOUT := 200.
Definition APPLICATION_READY_TIMEOUT := 500.
Definition DATA_AVAILABLE_TIMEOUT := 500.
Definition APPLICATION := "0xc0".
Definition COMMAND_CALIBRATION := "0x0b".
Definition COMMAND_FACTORY_CALIBRATION := "0x0a".
Definition COMMAND_MEASURE := "0x02".
Definition COMMAND_RESULT := "0x55".
Definition INTERRUPT_MASK := "0x01".
Definition CONTENT_CALIBRATION := "0x0a".

Definition ALGO_STATE : list string :=
  [ "0xB1"; "0xA9"; "0x02"; "0x00"; "0x00"; "0x00";
    "0x00"; "0x00"; "0x00"; "0x00"; "0x00" ].

Definition CPU_RESET := "0x07".
Definition CPU_READY := "0x06".

Definition REGISTER_APPID := "0x00".
Definition REGISTER_APPREQID := "0x02".
Definition REGISTER_COMMAND := "0x10".
Definition REGISTER_STATUS := "0x1D".
Definition REGISTER_REGISTER_CONTENTS := "0x1E".
Definition REGISTER_RESULT_INFO := "0x21".
Definition REGISTER_DISTANCE_PEAK_0 := "0x22".
Definition REGISTER_DISTANCE_PEAK_1 := "0x23".
Definition REGISTER_FACTORY_CALIB_0 := "0x20".
Definition REGISTER_STATE_DATA_WR_0 := "0x2E".
Definition REGISTER_ENABLE_REG := "0xE0".
Definition REGISTER_INT_STATUS := "0xE1".
Definition REGISTER_INT_ENAB := "0xE2".

Definition CALIBRATION_DATA_LENGTH := 14.
Definition MISSING_FACTORY_CALIBRATION := 39.

(* ================================================================== *)
(** ** The collaborators and the history of interactions *)
(* ================================================================== *)

(** One interaction of the driver with a collaborator, with what the
    collaborator answered. *)
Inductive event :=
| EScan (found : list Z)                            (* i2c.scan() *)
| ERead (addr memaddr nbytes : Z) (data : bytes)    (* i2c.readfrom_mem *)
| EWrite (addr memaddr : Z) (buf : bytes)           (* i2c.writeto_mem *)
| EFeed                                             (* wdt.feed() *)
| ESleep (ms : Z)                                   (* utime.sleep_ms *)
| ETime (now : Z)                                   (* utime.time() *)
| EPin (pin : Z) (high : bool)                      (* Pin(..).high()/low() *)
| EPrint (s : string).                              (* print(..) *)

Definition trace := list event.

(** The environment: what the bus, the clock and the platform answer, as a
    function of everything that has happened so far.  Every request is
    logged, so two requests never see the same history and any sequence of
    answers is the behaviour of some [World].  The bus always answers: a
    transport fault ([OSError]) is outside the model. *)
Record World := {
  sys_byteorder : Py.byteorder;
  i2c_scan : trace -> list Z;
  i2c_readfrom_mem : trace -> Z -> Z -> Z -> bytes;
  utime_time : trace -> Z
}.

(** The fields of a [TMF8805] instance set by [__init__]. *)
Record TMF8805 := {
  enable : Z;
  sda : Z;
  scl : Z;
  address : string;
  debug : bool
}.

Inductive exn := ValueError.

(** How a call ends: it returns, it raises, or the model's iteration
    allowance for unbounded loops ran out. *)
Inductive outcome (A : Type) :=
| Ok (a : A)
| Raise (e : exn)
| OutOfFuel.
Arguments Ok {A} a.
Arguments Raise {A} e.
Arguments OutOfFuel {A}.

(** A computation reads the history so far and yields an outcome together
    with the events it appended. *)
Definition M (A : Type) := World -> trace -> outcome A * trace.

Definition ret {A} (a : A) : M A := fun _ _ => (Ok a, []).

Definition bind {A B} (m : M A) (f : A -> M B) : M B :=
  fun w t =>
    match m w t with
    | (Ok a, e1) => let (r, e2) := f a w (t ++ e1) in (r, e1 ++ e2)
    | (Raise e, e1) => (Raise e, e1)
    | (OutOfFuel, e1) => (OutOfFuel, e1)
    end.

Notation "x <- m ;; k" := (bind m (fun x => k))
  (at level 61, m at next level, right associativity).
Notation "m ;; k" := (bind m (fun _ => k))
  (at level 61, right associativity).
Notation "' p <- m ;; k" := (bind m (fun x => match x with p => k end))
  (at level 61, p pattern, m at next level, right associativity).

Definition raise {A} (e : exn) : M A := fun _ _ => (Raise e, []).
Definition out_of_fuel {A} : M A := fun _ _ => (OutOfFuel, []).

(** Lifts a built-in that raises [ValueError]. *)
Definition value_of {A} (o : option A) : M A :=
  match o with
  | Some a => ret a
  | None => raise ValueError
  end.

Definition byteorder : M Py.byteorder := fun w _ => (Ok (sys_byteorder w), []).

Definition scan : M (list Z) :=
  fun w t => let found := i2c_scan w t in (Ok found, [EScan found]).

Definition readfrom_mem (addr memaddr nbytes : Z) : M bytes :=
  fun w t =>
    let data := i2c_readfrom_mem w t addr memaddr nbytes in
    (Ok data, [ERead addr memaddr nbytes data]).

Definition writeto_mem (addr memaddr : Z) (buf : bytes) : M unit :=
  fun _ _ => (Ok tt, [EWrite addr memaddr buf]).

Definition wdt_feed : M unit := fun _ _ => (Ok tt, [EFeed]).
Definition sleep_ms (ms : Z) : M unit := fun _ _ => (Ok tt, [ESleep ms]).
Definition time : M Z :=
  fun w t => let now := utime_time w t in (Ok now, [ETime now]).
Definition pin_set (pin : Z) (high : bool) : M unit :=
  fun _ _ => (Ok tt, [EPin pin high]).
Definition print (s : string) : M unit := fun _ _ => (Ok tt, [EPrint s]).

(** [while cond(s): s = body(s)], unrolled at most [fuel] times. *)
Fixpoint while_loop {St : Type} (fuel : nat) (cond : St -> bool)
    (body : St -> M St) (s : St) : M St :=
  if cond s then
    match fuel with
    | O => out_of_fuel
    | S k => s' <- body s ;; while_loop k cond body s'
    end
  else ret s.

(* ================================================================== *)
(** ** The methods of class TMF8805 *)
(* ================================================================== *)

(** What [get_measurement] returns: [False] or the distance. *)
Inductive measurement :=
| MFalse
| MDistance (mm : Z).

Section Methods.

Variable self : TMF8805.

(** Iteration allowance of the model's loops. *)
Variable fuel : nat.

Definition hex_to_dec (hex_value : string) : M Z :=
  value_of (Py.int0 hex_value).

Definition is_connected : M bool :=
  devices <- scan ;;
  a <- hex_to_dec (address self) ;;
  ret (existsb (Z.eqb a) devices).

Definition read_single_byte (register : string) : M Z :=
  a <- hex_to_dec (address self) ;;
  r <- hex_to_dec register ;;
  value <- readfrom_mem a r 1 ;;
  order <- byteorder ;;
  ret (Py.from_bytes value order).

Definition read_bytes (register : string) (byte_count : Z) : M bytes :=
  a <- hex_to_dec (address self) ;;
  r <- hex_to_dec register ;;
  readfrom_mem a r byte_count.

Definition write_bytes (register value : string) : M unit :=
  let value := if Py.startswith "0x" value then Py.drop 2 value else value in
  let value := if Py.len value =? 1 then ("0" ++ value)%string else value in
  a <- hex_to_dec (address self) ;;
  r <- hex_to_dec register ;;
  buf <- value_of (Py.fromhex value) ;;
  writeto_mem a r buf.

Definition set_register_bit (register : string) : M unit :=
  a <- hex_to_dec (address self) ;;
  r <- hex_to_dec register ;;
  writeto_mem a r ["1"%byte].

Definition is_bit_set (register position : string) : M bool :=
  value <- read_single_byte register ;;
  p <- hex_to_dec position ;;
  let mask := Z.shiftl 1 p in
  ret (negb (Z.land value mask =? 0)).

Definition reset_cpu : M unit :=
  set_register_bit REGISTER_ENABLE_REG.

Definition is_cpu_ready : M bool :=
  wdt_feed ;;
  st <- while_loop fuel
          (fun '(counter, ready) => (counter <? CPU_READY_TIMEOUT) && negb ready)
          (fun '(counter, _) =>
             ready <- is_bit_set REGISTER_ENABLE_REG CPU_READY ;;
             wdt_feed ;;
             if negb ready then
               sleep_ms 100 ;; wdt_feed ;; ret (counter + 1, ready)
             else ret (counter, ready))
          (0, false) ;;
  ret (snd st).

Definition get_status : M (string * string) :=
  status <- read_single_byte REGISTER_STATUS ;;
  if status =? MISSING_FACTORY_CALIBRATION then
    ret ("ErrMissingFactCal",
         "There is no (or no valid) factory calibration on the device. Using default values instead.")
  else ret (Py.str status, "N/A").

Definition get_current_calibration : M bytes :=
  read_bytes REGISTER_FACTORY_CALIB_0 CALIBRATION_DATA_LENGTH.

Definition enable_interrupt : M unit :=
  value <- read_single_byte REGISTER_INT_STATUS ;;
  mask <- value_of (Py.int0 INTERRUPT_MASK) ;;
  let value := Z.lor value mask in
  write_bytes REGISTER_INT_ENAB (Py.str value).

Definition clear_interrupt_flag : M unit :=
  value <- read_single_byte REGISTER_INT_STATUS ;;
  mask <- value_of (Py.int0 INTERRUPT_MASK) ;;
  let value := Z.lor value mask in
  write_bytes REGISTER_INT_STATUS (Py.str value).

(** The loop of [perform_calibration]: [while (utime.time() - start) < 30],
    left through [break] once the register holds the marker.  Returns
    [calibration_data], which is [b""] unless the marker was seen. *)
Fixpoint calibration_wait (n : nat) (start_of_calibration : Z) : M bytes :=
  now <- time ;;
  if now - start_of_calibration <? 30 then
    match n with
    | O => out_of_fuel
    | S k =>
        wdt_feed ;;
        sleep_ms 50 ;;
        value <- read_single_byte REGISTER_REGISTER_CONTENTS ;;
        print ("REGISTER_REGISTER_CONTENTS: " ++ Py.str value)%string ;;
        marker <- hex_to_dec CONTENT_CALIBRATION ;;
        if value =? marker then
          wdt_feed ;;
          sleep_ms 10 ;;
          read_bytes REGISTER_FACTORY_CALIB_0 CALIBRATION_DATA_LENGTH
        else calibration_wait k start_of_calibration
    end
  else ret [].

Definition perform_calibration : M bytes :=
  wdt_feed ;;
  enable_interrupt ;;
  write_bytes REGISTER_COMMAND COMMAND_FACTORY_CALIBRATION ;;
  start_of_calibration <- time ;;
  calibration_wait fuel start_of_calibration.

Definition set_calibration (calibration_data : bytes) : M unit :=
  write_bytes REGISTER_COMMAND COMMAND_CALIBRATION ;;
  a <- hex_to_dec (address self) ;;
  r <- hex_to_dec REGISTER_FACTORY_CALIB_0 ;;
  writeto_mem a r calibration_data ;;
  write_bytes REGISTER_STATE_DATA_WR_0
    (String.concat "" (map (Py.drop 2) ALGO_STATE)).

Definition load_measurement_application : M unit :=
  write_bytes REGISTER_APPREQID APPLICATION.

Definition is_application_ready : M bool :=
  st <- while_loop fuel
          (fun '(counter, ready) =>
             (counter <? APPLICATION_READY_TIMEOUT) && negb ready)
          (fun '(counter, _) =>
             appid <- read_single_byte REGISTER_APPID ;;
             app <- hex_to_dec APPLICATION ;;
             let ready := appid =? app in
             wdt_feed ;;
             if negb ready then
               sleep_ms 100 ;; wdt_feed ;; ret (counter + 1, ready)
             else ret (counter, ready))
          (0, false) ;;
  ret (snd st).

Definition start_measurement_application : M unit :=
  write_bytes REGISTER_COMMAND COMMAND_MEASURE.

Definition is_data_available : M bool :=
  st <- while_loop fuel
          (fun '(counter, data_available) =>
             (counter <? DATA_AVAILABLE_TIMEOUT) && negb data_available)
          (fun '(counter, _) =>
             wdt_feed ;;
             result <- read_single_byte REGISTER_REGISTER_CONTENTS ;;
             expected <- value_of (Py.int0 COMMAND_RESULT) ;;
             let data_available := result =? expected in
             if negb data_available then
               sleep_ms 10 ;; wdt_feed ;; ret (counter + 1, data_available)
             else ret (counter, data_available))
          (0, false) ;;
  ret (snd st).

Definition power_down : M unit := pin_set (enable self) false.

Definition power_up : M unit := pin_set (enable self) true ;; wdt_feed.

Definition initialize : M bool :=
  connected <- is_connected ;;
  if negb connected then
    print "TMF8805 is not connected. Please check the parameters" ;;
    ret false
  else
    reset_cpu ;;
    ready <- is_cpu_ready ;;
    if negb ready then
      print "Waiting for CPU to be ready timed out" ;;
      ret false
    else ret true.

(** Lines 475-480 of tmf8805.py: the result-info value to the pair
    (reliabilty, status). *)
Definition decode_result_info (raw : Z) : option (Z * Z) :=
  let result_info := Py.bin raw in
  let result_info := Py.drop 2 result_info in
  let result_info := Py.reversed result_info in
  let result_info :=
    (result_info ++ Py.repeat_str "0" (8 - Py.len result_info))%string in
  match Py.int2 (Py.slice 0 6 result_info) with
  | Some reliabilty =>
      match Py.int2 (Py.slice 6 8 result_info) with
      | Some status => Some (reliabilty, status)
      | None => None
      end
  | None => None
  end.

Definition get_measurement : M measurement :=
  load_measurement_application ;;
  app_ready <- is_application_ready ;;
  if negb app_ready then
    print "Waiting for measurement application to be ready timed out" ;;
    ret MFalse
  else
    start_measurement_application ;;
    enable_interrupt ;;
    available <- is_data_available ;;
    if negb available then
      print "[TMF8805.Error] Waiting for data to be available timed out" ;;
      ret MFalse
    else
      wdt_feed ;;
      raw <- read_single_byte REGISTER_RESULT_INFO ;;
      '(reliabilty, status) <- value_of (decode_result_info raw) ;;
      wdt_feed ;;
      peak_1 <- read_single_byte REGISTER_DISTANCE_PEAK_1 ;;
      peak_0 <- read_single_byte REGISTER_DISTANCE_PEAK_0 ;;
      let distance := peak_1 in
      let distance := Z.shiftl distance 8 in
      let distance := distance + peak_0 in
      wdt_feed ;;
      (if debug self then
         print ("[TMF8805] Measurement: " ++ Py.str distance
                ++ "mm (Reliabilty: " ++ Py.str reliabilty
                ++ "; Status: " ++ Py.str status
                ++ "; Peak1: " ++ Py.str peak_1
                ++ "; Peak0: " ++ Py.str peak_0 ++ ")")%string
       else ret tt) ;;
      ret (MDistance distance).

End Methods.

(* ================================================================== *)
(** ** The constructor and main.py *)
(* ================================================================== *)

(** [TMF8805.__init__]: the fields are those of the record; the sensor is
    powered up, then the I2C object is built, which is no interaction with
    a collaborator. *)
Definition init (self : TMF8805) : M unit := power_up self.

(** The instance main.py builds. *)
Definition main_instance : TMF8805 := {|
  enable := 7; sda := 4; scl := 5; address := "0x41"; debug := true
|}.

(** [f"{distance}"] for what [get_measurement] returned. *)
Definition measurement_str (m : measurement) : string :=
  match m with
  | MFalse => "False"
  | MDistance d => Py.str d
  end.

(** The body of the [while True] loop of main.py. *)
Definition main_iteration (self : TMF8805) (fuel : nat) : M unit :=
  initialize self fuel ;;
  distance <- get_measurement self fuel ;;
  print ("Distance: " ++ measurement_str distance ++ "mm")%string.

(** The loop itself, for at most [n] rounds. *)
Fixpoint main_loop (self : TMF8805) (fuel n : nat) : M unit :=
  match n with
  | O => out_of_fuel
  | S k => main_iteration self fuel ;; main_loop self fuel k
  end.

Definition main (fuel n : nat) : M unit :=
  init main_instance ;; main_loop main_instance fuel n.

(* ================================================================== *)
(** ** The test fixtures (tests/machine_mock.py, tests/utime_mock.py) *)
(* ================================================================== *)

Module Mock.

Inductive TMF8805MockConfiguration :=
| CORRECT_MEASUREMENT
| PERFORM_CALIBRATION
| NOT_CONNECTED
| CPU_READY_TIMEOUT
| APPLICATION_READY_TIMEOUT
| UNKNOWN_STATUS
| DATA_AVAILABLE_TIMEOUT.

(** [int(n).to_bytes(2, sys.byteorder)] on a little-endian host. *)
Definition to_bytes2 (n : Z) : bytes :=
  match Py.byte_of_Z (n mod 256), Py.byte_of_Z ((n / 256) mod 256) with
  | Some lo, Some hi => [lo; hi]
  | _, _ => []
  end.

Definition scan (c : TMF8805MockConfiguration) : list Z :=
  match c with
  | NOT_CONNECTED => []
  | _ => [65]
  end.

(** [I2C.readfrom_mem] of the fixture.  It ignores the device address and,
    but for the calibration register, the byte count.  A register it does
    not know is answered with [None] there and with [b""] here; the driver
    reads no such register. *)
Definition readfrom_mem (c : TMF8805MockConfiguration) (memaddr nbytes : Z)
  : bytes :=
  if memaddr =? 0 then
    match c with
    | APPLICATION_READY_TIMEOUT => to_bytes2 0
    | _ => to_bytes2 192
    end
  else if memaddr =? 14 then to_bytes2 1
  else if memaddr =? 29 then
    match c with
    | UNKNOWN_STATUS => to_bytes2 9999
    | _ => to_bytes2 39
    end
  else if memaddr =? 30 then
    match c with
    | PERFORM_CALIBRATION => to_bytes2 10
    | DATA_AVAILABLE_TIMEOUT => to_bytes2 0
    | _ => to_bytes2 85
    end
  else if memaddr =? 32 then repeat "A"%byte (Z.to_nat nbytes)
  else if memaddr =? 33 then to_bytes2 63
  else if memaddr =? 34 then to_bytes2 226
  else if memaddr =? 35 then to_bytes2 4
  else if memaddr =? 224 then
    match c with
    | CPU_READY_TIMEOUT => to_bytes2 0
    | _ => to_bytes2 64
    end
  else if memaddr =? 225 then to_bytes2 1
  else [].

(** Milliseconds slept so far. *)
Definition slept (t : trace) : Z :=
  fold_right (fun e acc => match e with ESleep ms => ms + acc | _ => acc end)
    0 t.

(** The fixture as an environment.  The clock advances with the sleeps
    only. *)
Definition world (c : TMF8805MockConfiguration) : World := {|
  sys_byteorder := Py.little;
  i2c_scan := fun _ => scan c;
  i2c_readfrom_mem := fun _ _ memaddr nbytes => readfrom_mem c memaddr nbytes;
  utime_time := fun t => slept t / 1000
|}.

(** The same registers behind a bus that returns as many bytes as were
    asked for, as the sensor does. *)
Definition device (c : TMF8805MockConfiguration) : World := {|
  sys_byteorder := Py.little;
  i2c_scan := fun _ => scan c;
  i2c_readfrom_mem := fun _ _ memaddr nbytes =>
    firstn (Z.to_nat nbytes) (readfrom_mem c memaddr nbytes);
  utime_time := fun t => slept t / 1000
|}.

(** The device of [CORRECT_MEASUREMENT] with the interrupt-status register
    0xE1 holding the byte [b]. *)
Definition device_with_interrupt_status (b : byte) : World := {|
  sys_byteorder := Py.little;
  i2c_scan := fun _ => [65];
  i2c_readfrom_mem := fun _ _ memaddr nbytes =>
    if memaddr =? 225 then [b]
    else firstn (Z.to_nat nbytes) (readfrom_mem CORRECT_MEASUREMENT memaddr nbytes);
  utime_time := fun t => slept t / 1000
|}.

(** The instance of tests/conftest.py. *)
Definition tmf8805_instance : TMF8805 := {|
  enable := 7; sda := 4; scl := 5; address := "0x41"; debug := true
|}.

End Mock.

(* ================================================================== *)
(** ** Vocabulary of the statements *)
(* ================================================================== *)

(** The hex digits [write_bytes] hands to [bytes.fromhex]. *)
Definition hex_digits_of (value : string) : string :=
  let value := if Py.startswith "0x" value then Py.drop 2 value else value in
  if Py.len value =? 1 then ("0" ++ value)%string else value.

(** The answers of the reads of register [memaddr] in a history, oldest
    first. *)
Definition reads_of (memaddr : Z) (evs : trace) : list bytes :=
  flat_map (fun e => match e with
                     | ERead _ r _ data => if r =? memaddr then [data] else []
                     | _ => []
                     end) evs.

(** The register writes in a history, oldest first. *)
Definition writes_of (evs : trace) : list (Z * bytes) :=
  flat_map (fun e => match e with
                     | EWrite _ r buf => [(r, buf)]
                     | _ => []
                     end) evs.

(** The outcome of a poll with a budget of [limit] iterations, given the
    truth of the polled condition at each iteration: [k] iterations that
    did not see it, followed by one that did ([b = true], within the
    budget) or by nothing ([b = false], the budget is used up). *)
Definition polled (limit : nat) (seen : list bool) (b : bool) : Prop :=
  exists k : nat,
    seen = repeat false k ++ (if b then [true] else []) /\
    if b then (k < limit)%nat else k = limit.

(** What each poll looks for in the answer of its register read. *)
Definition cpu_ready_seen (w : World) (d : bytes) : bool :=
  Z.testbit (Py.from_bytes d (sys_byteorder w)) 6.

Definition application_seen (w : World) (d : bytes) : bool :=
  Py.from_bytes d (sys_byteorder w) =? 192.

Definition result_seen (w : World) (d : bytes) : bool :=
  Py.from_bytes d (sys_byteorder w) =? 85.

(** The events of one iteration of each poll, given the answer [d] of its
    register read. *)
Definition cpu_ready_iter (w : World) (a : Z) (d : bytes) : trace :=
  [ERead a 224 1 d; EFeed]
  ++ (if cpu_ready_seen w d then [] else [ESleep 100; EFeed]).

Definition application_iter (w : World) (a : Z) (d : bytes) : trace :=
  [ERead a 0 1 d; EFeed]
  ++ (if application_seen w d then [] else [ESleep 100; EFeed]).

Definition result_iter (w : World) (a : Z) (d : bytes) : trace :=
  [EFeed; ERead a 30 1 d]
  ++ (if result_seen w d then [] else [ESleep 10; EFeed]).

(** The diagnostics of [initialize]. *)
Definition not_connected_message :=
  "TMF8805 is not connected. Please check the parameters".
Definition cpu_timeout_message := "Waiting for CPU to be ready timed out".

(** Strings of binary digits. *)
Fixpoint binary (s : string) : Prop :=
  match s with
  | EmptyString => True
  | String c rest => (c = "0"%char \/ c = "1"%char) /\ binary rest
  end.

(** The value both methods hand to [write_bytes], as a decimal string:
    the interrupt-status value with the mask or-ed in. *)
Definition interrupt_value (w : World) (d : bytes) : Z :=
  Z.lor (Py.from_bytes d (sys_byteorder w)) 1.

(** The bytes [write_bytes] makes of the decimal string of [m]. *)
Definition interrupt_payload (m : Z) : option bytes :=
  Py.fromhex (hex_digits_of (Py.str m)).

(** The diagnostics of [get_measurement]. *)
Definition application_timeout_message :=
  "Waiting for measurement application to be ready timed out".
Definition data_timeout_message :=
  "[TMF8805.Error] Waiting for data to be available timed out".

(** The text printed after a measurement when [debug] is set. *)
Definition measurement_message (distance reliabilty status peak_1 peak_0 : Z)
  : string :=
  ("[TMF8805] Measurement: " ++ Py.str distance
   ++ "mm (Reliabilty: " ++ Py.str reliabilty
   ++ "; Status: " ++ Py.str status
   ++ "; Peak1: " ++ Py.str peak_1
   ++ "; Peak0: " ++ Py.str peak_0 ++ ")")%string.

(** The events up to the moment the measurement is started and the
    interrupt-status register has been read: [ds1] are the answers to the
    application-ready poll, [dint] the interrupt-status answer. *)
Definition measurement_prelude (w : World) (a : Z) (ds1 : list bytes)
    (dint : bytes) : trace :=
  EWrite a 2 [xc0] :: flat_map (application_iter w a) ds1
  ++ [EWrite a 16 [x02]; ERead a 225 1 dint].

(** The ways a call of [get_measurement] can go, with the events of each. *)
Inductive measurement_run (self : TMF8805) (w : World) (a : Z)
  : outcome measurement -> trace -> Prop :=
| run_application_timeout ds1 :
    polled 500 (map (application_seen w) ds1) false ->
    measurement_run self w a (Ok MFalse)
      (EWrite a 2 [xc0] :: flat_map (application_iter w a) ds1
       ++ [EPrint application_timeout_message])
| run_interrupt_raises ds1 dint :
    polled 500 (map (application_seen w) ds1) true ->
    interrupt_payload (interrupt_value w dint) = None ->
    measurement_run self w a (Raise ValueError)
      (measurement_prelude w a ds1 dint)
| run_data_timeout ds1 dint buf ds2 :
    polled 500 (map (application_seen w) ds1) true ->
    interrupt_payload (interrupt_value w dint) = Some buf ->
    polled 500 (map (result_seen w) ds2) false ->
    measurement_run self w a (Ok MFalse)
      (measurement_prelude w a ds1 dint
       ++ EWrite a 226 buf :: flat_map (result_iter w a) ds2
       ++ [EPrint data_timeout_message])
| run_distance ds1 dint buf ds2 raw hi lo reliabilty status :
    polled 500 (map (application_seen w) ds1) true ->
    interrupt_payload (interrupt_value w dint) = Some buf ->
    polled 500 (map (result_seen w) ds2) true ->
    decode_result_info (Py.from_bytes raw (sys_byteorder w))
      = Some (reliabilty, status) ->
    let peak_1 := Py.from_bytes hi (sys_byteorder w) in
    let peak_0 := Py.from_bytes lo (sys_byteorder w) in
    let distance := Z.shiftl peak_1 8 + peak_0 in
    measurement_run self w a (Ok (MDistance distance))
      (measurement_prelude w a ds1 dint
       ++ EWrite a 226 buf :: flat_map (result_iter w a) ds2
       ++ [EFeed; ERead a 33 1 raw; EFeed;
           ERead a 35 1 hi; ERead a 34 1 lo; EFeed]
       ++ (if debug self
           then [EPrint (measurement_message distance reliabilty status
                           peak_1 peak_0)]
           else [])).

(** The 8-bit representation of a byte, most significant bit first. *)
Definition bits8 (b : byte) : list bool :=
  map (Z.testbit (Z_of_byte b)) [7; 6; 5; 4; 3; 2; 1; 0].

(** The number a bit string denotes, most significant bit first. *)
Definition bits_value (bs : list bool) : Z :=
  fold_left (fun acc (b : bool) => 2 * acc + Z.b2z b) bs 0.

(** Reverse the bit order of the 8-bit representation, then split it into
    a field of six bits and a field of two bits. *)
Definition reversed_split (b : byte) : Z * Z :=
  let r := rev (bits8 b) in
  (bits_value (firstn 6 r), bits_value (skipn 6 r)).

(** The one status [get_status] knows. *)
Definition missing_calibration_code := "ErrMissingFactCal".
Definition missing_calibration_description :=
  "There is no (or no valid) factory calibration on the device. Using default values instead.".

(** The bytes of [ALGO_STATE]. *)
Definition algo_state_bytes : bytes :=
  [xb1; xa9; x02; x00; x00; x00; x00; x00; x00; x00; x00].

(** Number of bits set in the low eight bits of [v]. *)
Definition popcount8 (v : Z) : nat :=
  List.length (filter (Z.testbit v) [0; 1; 2; 3; 4; 5; 6; 7]).

(** The decimal string of [m] read as a hexadecimal numeral,
    [int(str(m), 16)]. *)
Definition decimal_read_as_hex (m : Z) : option Z :=
  Py.digits 16 (Py.str m).

(** The line [perform_calibration] prints at each poll. *)
Definition contents_message (value : Z) : string :=
  ("REGISTER_REGISTER_CONTENTS: " ++ Py.str value)%string.

(** One turn of the loop: the clock is read, the watchdog fed, 50 ms
    slept, the register-contents register read and its value printed. *)
Definition calibration_poll (w : World) (a now : Z) (d : bytes) : trace :=
  [ETime now; EFeed; ESleep 50; ERead a 30 1 d;
   EPrint (contents_message (Py.from_bytes d (sys_byteorder w)))].

(** The events of the polls that did not end the loop, each given by its
    clock reading and its register answer. *)
Definition calibration_polls (w : World) (a : Z) (turns : list (Z * bytes))
  : trace :=
  flat_map (fun p => calibration_poll w a (fst p) (snd p)) turns.

(** A poll goes on to the next when the clock shows less than 30 s since
    [start] and the register does not hold the marker. *)
Definition goes_on (w : World) (start : Z) (p : Z * bytes) : Prop :=
  fst p - start < 30 /\ Py.from_bytes (snd p) (sys_byteorder w) <> 10.

(** How the loop ends after the polls that went on: the marker is found
    and 14 bytes are read back; or the clock shows 30 s or more; or the
    model's allowance of [n] turns is used up. *)
Definition calibration_ending (w : World) (a start : Z) (n done : nat)
    (out : outcome bytes) (tail : trace) : Prop :=
  (exists now d blob,
      out = Ok blob /\
      tail = calibration_poll w a now d
             ++ [EFeed; ESleep 10; ERead a 32 14 blob] /\
      now - start < 30 /\ Py.from_bytes d (sys_byteorder w) = 10 /\
      (done < n)%nat) \/
  (exists now,
      out = Ok [] /\ tail = [ETime now] /\ 30 <= now - start /\
      (done <= n)%nat) \/
  (exists now,
      out = OutOfFuel /\ tail = [ETime now] /\ now - start < 30 /\ done = n).

(** How the loop of [perform_calibration] goes when it may take [n] turns,
    started at clock reading [start]. *)
Inductive calibration_wait_run (w : World) (a start : Z)
  : nat -> outcome bytes -> trace -> Prop :=
| wait_timeout n now :
    30 <= now - start ->
    calibration_wait_run w a start n (Ok []) [ETime now]
| wait_found n now d blob :
    now - start < 30 ->
    Py.from_bytes d (sys_byteorder w) = 10 ->
    calibration_wait_run w a start (S n) (Ok blob)
      (calibration_poll w a now d
       ++ [EFeed; ESleep 10; ERead a 32 14 blob])
| wait_again n now d out evs :
    now - start < 30 ->
    Py.from_bytes d (sys_byteorder w) <> 10 ->
    calibration_wait_run w a start n out evs ->
    calibration_wait_run w a start (S n) out (calibration_poll w a now d ++ evs)
| wait_out_of_fuel now :
    now - start < 30 ->
    calibration_wait_run w a start 0 OutOfFuel [ETime now].

(** How a call of [perform_calibration] goes. *)
Inductive calibration_run (w : World) (a : Z) (fuel : nat)
  : outcome bytes -> trace -> Prop :=
| calibration_interrupt_raises dint :
    interrupt_payload (interrupt_value w dint) = None ->
    calibration_run w a fuel (Raise ValueError) [EFeed; ERead a 225 1 dint]
| calibration_waits dint buf start out evs :
    interrupt_payload (interrupt_value w dint) = Some buf ->
    calibration_wait_run w a start fuel out evs ->
    calibration_run w a fuel out
      ([EFeed; ERead a 225 1 dint; EWrite a 226 buf; EWrite a 16 [x0a];
        ETime start] ++ evs).

(** No ASCII blank (space, tab, line feed, vertical tab, form feed,
    carriage return) occurs in the string. *)
Fixpoint blank_free (s : string) : bool :=
  match s with
  | EmptyString => true
  | String c rest =>
      let n := N_of_ascii c in
      negb ((n =? 32)%N || ((9 <=? n)%N && (n <=? 13)%N)) && blank_free rest
  end.

(** Milliseconds slept in a history. *)
Definition slept_ms (evs : trace) : Z :=
  fold_right (fun e acc => match e with ESleep ms => ms + acc | _ => acc end)
    0 evs.

(** Follows a history with the milliseconds slept since the watchdog was
    last fed, starting from [unfed]: [None] as soon as they exceed [limit],
    else what is left unfed at the end. *)
Fixpoint sleeps_fed (limit unfed : Z) (evs : trace) : option Z :=
  match evs with
  | [] => Some unfed
  | EFeed :: rest => sleeps_fed limit 0 rest
  | ESleep ms :: rest =>
      if unfed + ms <=? limit then sleeps_fed limit (unfed + ms) rest
      else None
  | _ :: rest => sleeps_fed limit unfed rest
  end.

(** Polls that did not show the condition. *)
Definition misses (seen : list bool) : Z :=
  Z.of_nat (List.length (filter negb seen)).

(** The clock does not fall behind the sleeps: whole seconds slept show on
    it. *)
Definition clock_advances (w : World) : Prop :=
  forall t1 t2, utime_time w t1 + slept_ms t2 / 1000 <= utime_time w (t1 ++ t2).

(** The byte with the bits of a reliability and a status put back in
    register order: the six bits of [reliabilty] mirrored into bits 0-5,
    the two bits of [status] mirrored into bits 6-7. *)
Definition result_info_of (reliabilty status : Z) : Z :=
  let bit v i := Z.b2z (Z.testbit v i) in
  bit reliabilty 5 + 2 * bit reliabilty 4 + 4 * bit reliabilty 3
  + 8 * bit reliabilty 2 + 16 * bit reliabilty 1 + 32 * bit reliabilty 0
  + 64 * bit status 1 + 128 * bit status 0.

(* ================================================================== *)
(** ** Running computations *)
(* ================================================================== *)

Lemma bind_run {A B} (m : M A) (f : A -> M B) w t a e1 r e2 :
  m w t = (Ok a, e1) ->
  f a w (t ++ e1) = (r, e2) ->
  bind m f w t = (r, e1 ++ e2).
Proof. intros Hm Hf. unfold bind. now rewrite Hm, Hf. Qed.

Lemma bind_raise {A B} (m : M A) (f : A -> M B) w t e e1 :
  m w t = (Raise e, e1) -> bind m f w t = (Raise e, e1).
Proof. intros Hm. unfold bind. now rewrite Hm. Qed.

Lemma bind_inv_ok {A B} (m : M A) (f : A -> M B) w t b evs :
  bind m f w t = (Ok b, evs) ->
  exists a e1 e2,
    m w t = (Ok a, e1) /\ f a w (t ++ e1) = (Ok b, e2) /\ evs = e1 ++ e2.
Proof.
  unfold bind. destruct (m w t) as [[a | e | ] e1]; try discriminate.
  destruct (f a w (t ++ e1)) as [r e2] eqn:Hf. intros H.
  injection H as -> <-. now exists a, e1, e2.
Qed.

Lemma hex_to_dec_run s z w t :
  Py.int0 s = Some z -> hex_to_dec s w t = (Ok z, []).
Proof. intros H. unfold hex_to_dec. now rewrite H. Qed.

Section MethodRuns.

Variables (self : TMF8805) (w : World) (a : Z).
Hypothesis address_ok : Py.int0 (address self) = Some a.

Lemma read_single_byte_run register r t :
  Py.int0 register = Some r ->
  read_single_byte self register w t =
    (let data := i2c_readfrom_mem w t a r 1 in
     (Ok (Py.from_bytes data (sys_byteorder w)), [ERead a r 1 data])).
Proof.
  intros Hr. unfold read_single_byte, hex_to_dec, bind.
  rewrite address_ok, Hr. simpl. now rewrite !app_nil_r.
Qed.

Lemma read_bytes_run register r n t :
  Py.int0 register = Some r ->
  read_bytes self register n w t =
    (let data := i2c_readfrom_mem w t a r n in (Ok data, [ERead a r n data])).
Proof.
  intros Hr. unfold read_bytes, hex_to_dec, bind.
  rewrite address_ok, Hr. simpl. now rewrite !app_nil_r.
Qed.

Lemma write_bytes_unfold register value :
  write_bytes self register value =
    (a <- hex_to_dec (address self) ;;
     r <- hex_to_dec register ;;
     buf <- value_of (Py.fromhex (hex_digits_of value)) ;;
     writeto_mem a r buf).
Proof. reflexivity. Qed.

Lemma write_bytes_run register value r buf t :
  Py.int0 register = Some r ->
  Py.fromhex (hex_digits_of value) = Some buf ->
  write_bytes self register value w t = (Ok tt, [EWrite a r buf]).
Proof.
  intros Hr Hb. rewrite write_bytes_unfold. unfold hex_to_dec, bind.
  now rewrite address_ok, Hr, Hb.
Qed.

Lemma write_bytes_raise register value r t :
  Py.int0 register = Some r ->
  Py.fromhex (hex_digits_of value) = None ->
  write_bytes self register value w t = (Raise ValueError, []).
Proof.
  intros Hr Hb. rewrite write_bytes_unfold. unfold hex_to_dec, bind.
  now rewrite address_ok, Hr, Hb.
Qed.

End MethodRuns.

(* ================================================================== *)
(** ** The bounded polling loops *)
(* ================================================================== *)

Lemma reads_of_app r e1 e2 : reads_of r (e1 ++ e2) = reads_of r e1 ++ reads_of r e2.
Proof. apply flat_map_app. Qed.

Lemma writes_of_app e1 e2 : writes_of (e1 ++ e2) = writes_of e1 ++ writes_of e2.
Proof. apply flat_map_app. Qed.

Lemma polled_length limit seen b :
  polled limit seen b -> (List.length seen <= limit)%nat.
Proof.
  intros [k [-> Hk]]. rewrite length_app, repeat_length.
  destruct b; simpl; lia.
Qed.

Lemma polled_false_iff limit seen b :
  polled limit seen b -> (b = false <-> seen = repeat false limit).
Proof.
  intros [k [-> Hk]]. destruct b.
  - split; [discriminate|]. intros H.
    assert (Hin : In true (repeat false limit)).
    { rewrite <- H. apply in_or_app. right. now left. }
    apply repeat_spec in Hin. discriminate.
  - subst k. now rewrite app_nil_r.
Qed.

Section Polling.

Variables (w : World) (limit : Z).
Variable body : Z * bool -> M (Z * bool).
Variable iter : bytes -> trace.
Variable seen : bytes -> bool.

(** One iteration reads one answer [d], emits [iter d], and either sets
    the flag or counts up. *)
Hypothesis body_run : forall c r t, exists d,
  body (c, r) w t = (Ok (if seen d then (c, true) else (c + 1, false)), iter d).

Lemma poll_loop (n : nat) : forall fuel c t,
  (n <= fuel)%nat -> c + Z.of_nat n = limit ->
  exists ds b c',
    while_loop fuel
      (fun '(counter, ready) => (counter <? limit) && negb ready)
      body (c, false) w t = (Ok (c', b), flat_map iter ds) /\
    polled n (map seen ds) b.
Proof.
  induction n as [|n IH]; intros fuel c t Hfuel Hc.
  - exists [], false, c. split.
    + destruct fuel; simpl;
        (replace (c <? limit) with false by (symmetry; apply Z.ltb_ge; lia));
        reflexivity.
    + now exists 0%nat.
  - destruct fuel as [|fuel]; [lia|].
    destruct (body_run c false t) as [d Hd].
    cbn [while_loop].
    replace (c <? limit) with true by (symmetry; apply Z.ltb_lt; lia).
    cbn [andb negb].
    destruct (seen d) eqn:Hs.
    + exists [d], true, c. split.
      * erewrite bind_run; [| exact Hd |].
        2:{ destruct fuel; simpl; rewrite andb_false_r; reflexivity. }
        simpl. now rewrite !app_nil_r.
      * exists 0%nat. simpl. rewrite Hs. split; [reflexivity | lia].
    + destruct (IH fuel (c + 1) (t ++ iter d)) as [ds [b [c' [Hrun Hp]]]];
        [lia | lia |].
      exists (d :: ds), b, c'. split.
      * erewrite bind_run; [| exact Hd | exact Hrun]. reflexivity.
      * destruct Hp as [k [Hk Hb]]. exists (S k). simpl. rewrite Hs, Hk.
        split; [reflexivity | destruct b; lia].
Qed.

End Polling.

Lemma land_bit_clear (v n : Z) :
  0 <= n -> (Z.land v (Z.shiftl 1 n) =? 0) = negb (Z.testbit v n).
Proof.
  intros Hn. rewrite Z.shiftl_1_l.
  destruct (Z.testbit v n) eqn:Hb; simpl.
  - apply Z.eqb_neq. intros H0.
    assert (Hc : Z.testbit (Z.land v (2 ^ n)) n = true).
    { rewrite Z.land_spec, Hb, Z.pow2_bits_true; [reflexivity | exact Hn]. }
    rewrite H0, Z.bits_0 in Hc. discriminate.
  - apply Z.eqb_eq, Z.bits_inj'. intros m Hm.
    rewrite Z.land_spec, Z.bits_0, Z.pow2_bits_eqb by exact Hn.
    destruct (Z.eqb_spec n m) as [-> | Hne].
    + now rewrite Hb.
    + apply andb_false_r.
Qed.

Section PollRuns.

Variables (self : TMF8805) (w : World) (a : Z).
Hypothesis address_ok : Py.int0 (address self) = Some a.

Lemma is_bit_set_run register position r p t :
  Py.int0 register = Some r ->
  Py.int0 position = Some p ->
  0 <= p ->
  is_bit_set self register position w t =
    (let data := i2c_readfrom_mem w t a r 1 in
     (Ok (Z.testbit (Py.from_bytes data (sys_byteorder w)) p),
      [ERead a r 1 data])).
Proof.
  intros Hr Hp Hp0. unfold is_bit_set.
  erewrite bind_run;
    [| apply (read_single_byte_run self w a address_ok _ _ _ Hr) |].
  2:{ erewrite bind_run; [| apply hex_to_dec_run, Hp | reflexivity].
      reflexivity. }
  cbv zeta. rewrite land_bit_clear, negb_involutive by exact Hp0.
  reflexivity.
Qed.

Lemma is_cpu_ready_run fuel t :
  (200 <= fuel)%nat ->
  exists ds b,
    is_cpu_ready self fuel w t =
      (Ok b, EFeed :: flat_map (cpu_ready_iter w a) ds) /\
    polled 200 (map (cpu_ready_seen w) ds) b.
Proof.
  intros Hfuel. unfold is_cpu_ready.
  match goal with
  | |- context [while_loop fuel ?cnd ?bd ?s0] =>
      destruct (poll_loop w CPU_READY_TIMEOUT bd (cpu_ready_iter w a)
                  (cpu_ready_seen w)) with (n := 200%nat) (fuel := fuel)
                  (c := 0) (t := t ++ [EFeed]) as [ds [b [c' [Hrun Hp]]]]
  end.
  - intros c r t'. exists (i2c_readfrom_mem w t' a 224 1).
    unfold cpu_ready_iter.
    destruct (cpu_ready_seen w (i2c_readfrom_mem w t' a 224 1)) eqn:Hs;
      unfold cpu_ready_seen in Hs;
      (erewrite bind_run;
       [| apply (is_bit_set_run REGISTER_ENABLE_REG CPU_READY 224 6);
          [reflexivity | reflexivity | lia]
        | cbv zeta; rewrite Hs; reflexivity]);
      reflexivity.
  - exact Hfuel.
  - reflexivity.
  - exists ds, b. split; [| exact Hp].
    erewrite bind_run; [| reflexivity |].
    2:{ erewrite bind_run; [| exact Hrun | reflexivity]. reflexivity. }
    simpl. now rewrite app_nil_r.
Qed.

Lemma is_application_ready_run fuel t :
  (500 <= fuel)%nat ->
  exists ds b,
    is_application_ready self fuel w t =
      (Ok b, flat_map (application_iter w a) ds) /\
    polled 500 (map (application_seen w) ds) b.
Proof.
  intros Hfuel. unfold is_application_ready.
  match goal with
  | |- context [while_loop fuel ?cnd ?bd ?s0] =>
      destruct (poll_loop w APPLICATION_READY_TIMEOUT bd (application_iter w a)
                  (application_seen w)) with (n := 500%nat) (fuel := fuel)
                  (c := 0) (t := t) as [ds [b [c' [Hrun Hp]]]]
  end.
  - intros c r t'. exists (i2c_readfrom_mem w t' a 0 1).
    unfold application_iter.
    destruct (application_seen w (i2c_readfrom_mem w t' a 0 1)) eqn:Hs;
      unfold application_seen in Hs;
      (erewrite bind_run;
       [| apply (read_single_byte_run self w a address_ok REGISTER_APPID 0);
          reflexivity
        | cbv zeta;
          erewrite bind_run;
          [| apply (hex_to_dec_run APPLICATION 192); reflexivity
           | cbv zeta; rewrite Hs; reflexivity];
          reflexivity]);
      reflexivity.
  - exact Hfuel.
  - reflexivity.
  - exists ds, b. split; [| exact Hp].
    erewrite bind_run; [| exact Hrun | reflexivity].
    simpl. now rewrite app_nil_r.
Qed.

Lemma is_data_available_run fuel t :
  (500 <= fuel)%nat ->
  exists ds b,
    is_data_available self fuel w t =
      (Ok b, flat_map (result_iter w a) ds) /\
    polled 500 (map (result_seen w) ds) b.
Proof.
  intros Hfuel. unfold is_data_available.
  match goal with
  | |- context [while_loop fuel ?cnd ?bd ?s0] =>
      destruct (poll_loop w DATA_AVAILABLE_TIMEOUT bd (result_iter w a)
                  (result_seen w)) with (n := 500%nat) (fuel := fuel)
                  (c := 0) (t := t) as [ds [b [c' [Hrun Hp]]]]
  end.
  - intros c r t'. exists (i2c_readfrom_mem w (t' ++ [EFeed]) a 30 1).
    unfold result_iter.
    destruct (result_seen w (i2c_readfrom_mem w (t' ++ [EFeed]) a 30 1)) eqn:Hs;
      unfold result_seen in Hs;
      (erewrite bind_run;
       [| reflexivity
        | erewrite bind_run;
          [| apply (read_single_byte_run self w a address_ok
                      REGISTER_REGISTER_CONTENTS 30);
             reflexivity
           | cbv zeta;
             erewrite bind_run;
             [| apply (hex_to_dec_run COMMAND_RESULT 85); reflexivity
              | cbv zeta; rewrite Hs; reflexivity];
             reflexivity];
          reflexivity]);
      reflexivity.
  - exact Hfuel.
  - reflexivity.
  - exists ds, b. split; [| exact Hp].
    erewrite bind_run; [| exact Hrun | reflexivity].
    simpl. now rewrite app_nil_r.
Qed.

End PollRuns.

(** *** Which registers the polls read *)

Lemma reads_of_cpu_ready_iter w a r ds :
  reads_of r (flat_map (cpu_ready_iter w a) ds) = if 224 =? r then ds else [].
Proof.
  induction ds as [|d ds IH]; [now destruct (224 =? r)|].
  cbn [flat_map]. rewrite reads_of_app, IH. unfold cpu_ready_iter, reads_of.
  destruct (cpu_ready_seen w d); cbn -[Z.eqb]; destruct (224 =? r); reflexivity.
Qed.

Lemma reads_of_application_iter w a r ds :
  reads_of r (flat_map (application_iter w a) ds) = if 0 =? r then ds else [].
Proof.
  induction ds as [|d ds IH]; [now destruct (0 =? r)|].
  cbn [flat_map]. rewrite reads_of_app, IH. unfold application_iter, reads_of.
  destruct (application_seen w d); cbn -[Z.eqb]; destruct (0 =? r); reflexivity.
Qed.

Lemma reads_of_result_iter w a r ds :
  reads_of r (flat_map (result_iter w a) ds) = if 30 =? r then ds else [].
Proof.
  induction ds as [|d ds IH]; [now destruct (30 =? r)|].
  cbn [flat_map]. rewrite reads_of_app, IH. unfold result_iter, reads_of.
  destruct (result_seen w d); cbn -[Z.eqb]; destruct (30 =? r); reflexivity.
Qed.

(** C9. Whatever the device answers, each polling loop returns a boolean
    after at most its budget of iterations (200 for [is_cpu_ready], 500 for
    [is_application_ready] and [is_data_available]): the answers it read
    are [k] that did not show the condition, then either one that did, in
    which case it returns [true] at once ([k] below the budget), or none, in
    which case [k] is the whole budget and it returns [false].  The
    iteration allowance of the model is never what stops a loop. *)
Theorem polling_loops_run_to_completion :
  forall self w a fuel t,
    Py.int0 (address self) = Some a ->
    (500 <= fuel)%nat ->
    (exists b evs,
        is_cpu_ready self fuel w t = (Ok b, evs) /\
        let seen := map (cpu_ready_seen w) (reads_of 224 evs) in
        polled 200 seen b /\ (List.length seen <= 200)%nat /\
        (b = false <-> seen = repeat false 200)) /\
    (exists b evs,
        is_application_ready self fuel w t = (Ok b, evs) /\
        let seen := map (application_seen w) (reads_of 0 evs) in
        polled 500 seen b /\ (List.length seen <= 500)%nat /\
        (b = false <-> seen = repeat false 500)) /\
    (exists b evs,
        is_data_available self fuel w t = (Ok b, evs) /\
        let seen := map (result_seen w) (reads_of 30 evs) in
        polled 500 seen b /\ (List.length seen <= 500)%nat /\
        (b = false <-> seen = repeat false 500)).
Proof.
  intros self w a fuel t Ha Hfuel. repeat split.
  - destruct (is_cpu_ready_run self w a Ha fuel t) as [ds [b [Hrun Hp]]];
      [lia|].
    exists b, (EFeed :: flat_map (cpu_ready_iter w a) ds).
    split; [exact Hrun|]. cbv zeta.
    change (reads_of 224 (EFeed :: ?l)) with (reads_of 224 l).
    rewrite reads_of_cpu_ready_iter. cbn [Z.eqb Pos.eqb].
    eauto using polled_length, polled_false_iff.
  - destruct (is_application_ready_run self w a Ha fuel t)
      as [ds [b [Hrun Hp]]]; [lia|].
    exists b, (flat_map (application_iter w a) ds).
    split; [exact Hrun|]. cbv zeta.
    rewrite reads_of_application_iter. cbn [Z.eqb].
    eauto using polled_length, polled_false_iff.
  - destruct (is_data_available_run self w a Ha fuel t)
      as [ds [b [Hrun Hp]]]; [lia|].
    exists b, (flat_map (result_iter w a) ds).
    split; [exact Hrun|]. cbv zeta.
    rewrite reads_of_result_iter. cbn [Z.eqb Pos.eqb].
    eauto using polled_length, polled_false_iff.
Qed.

(* ================================================================== *)
(** ** initialize *)
(* ================================================================== *)

Lemma existsb_eqb_In (a : Z) (l : list Z) :
  existsb (Z.eqb a) l = true <-> In a l.
Proof.
  rewrite existsb_exists. split.
  - intros [x [Hin Hx]]. apply Z.eqb_eq in Hx. now subst.
  - intros Hin. exists a. split; [exact Hin | apply Z.eqb_refl].
Qed.

Section InitializeRuns.

Variables (self : TMF8805) (w : World) (a : Z).
Hypothesis address_ok : Py.int0 (address self) = Some a.

Lemma is_connected_run t :
  is_connected self w t =
    (let found := i2c_scan w t in
     (Ok (existsb (Z.eqb a) found), [EScan found])).
Proof.
  unfold is_connected, hex_to_dec, bind. simpl. now rewrite address_ok.
Qed.

Lemma reset_cpu_run t :
  reset_cpu self w t = (Ok tt, [EWrite a 224 ["1"%byte]]).
Proof.
  unfold reset_cpu, set_register_bit, hex_to_dec, bind.
  now rewrite address_ok.
Qed.

Lemma initialize_absent fuel t :
  existsb (Z.eqb a) (i2c_scan w t) = false ->
  initialize self fuel w t =
    (Ok false, [EScan (i2c_scan w t); EPrint not_connected_message]).
Proof.
  intros Hscan. unfold initialize.
  erewrite bind_run; [| apply is_connected_run |].
  2:{ cbv zeta. rewrite Hscan. reflexivity. }
  reflexivity.
Qed.

Lemma initialize_present fuel t :
  (200 <= fuel)%nat ->
  existsb (Z.eqb a) (i2c_scan w t) = true ->
  exists ds (b : bool),
    initialize self fuel w t =
      (Ok b,
       [EScan (i2c_scan w t); EWrite a 224 ["1"%byte]; EFeed]
       ++ flat_map (cpu_ready_iter w a) ds
       ++ (if b then [] else [EPrint cpu_timeout_message])) /\
    polled 200 (map (cpu_ready_seen w) ds) b.
Proof.
  intros Hfuel Hscan.
  edestruct (is_cpu_ready_run self w a address_ok fuel) as [ds [b [Hrun Hp]]];
    [exact Hfuel|].
  exists ds, b. split; [| exact Hp].
  unfold initialize.
  destruct b;
    (erewrite bind_run; [| apply is_connected_run |];
     [| cbv zeta; rewrite Hscan; cbn [negb];
        erewrite bind_run; [| apply reset_cpu_run |];
        [| erewrite bind_run; [| exact Hrun | reflexivity]; reflexivity];
        reflexivity]);
    cbn [app]; rewrite ?app_nil_r; reflexivity.
Qed.

End InitializeRuns.

(** Without a parsable address the bus scan is all that happens. *)
Lemma initialize_bad_address self fuel w t :
  Py.int0 (address self) = None ->
  initialize self fuel w t = (Raise ValueError, [EScan (i2c_scan w t)]).
Proof.
  intros Hbad. unfold initialize, is_connected, hex_to_dec, bind. simpl.
  now rewrite Hbad.
Qed.

(** The connectivity test of the suite: the default address 0x41 is among
    the scanned ones, 0x42 is not. *)
Example is_connected_default :
  let w := Mock.world Mock.CORRECT_MEASUREMENT in
  fst (is_connected Mock.tmf8805_instance w []) = Ok true /\
  fst (is_connected
         {| enable := 7; sda := 4; scl := 5; address := "0x42"; debug := true |}
         w []) = Ok false.
Proof. split; reflexivity. Qed.

(** C6. When the configured address is not among the scanned addresses,
    [initialize] returns [False] having done nothing but the scan and the
    diagnostic print: no register is written (so no CPU reset) and none is
    read (so no CPU-ready poll). *)
Theorem initialize_absent_device_short_circuits :
  forall self fuel w t a,
    Py.int0 (address self) = Some a ->
    ~ In a (i2c_scan w t) ->
    initialize self fuel w t =
      (Ok false, [EScan (i2c_scan w t); EPrint not_connected_message]) /\
    writes_of (snd (initialize self fuel w t)) = [] /\
    (forall r, reads_of r (snd (initialize self fuel w t)) = []).
Proof.
  intros self fuel w t a Ha Habsent.
  assert (Hscan : existsb (Z.eqb a) (i2c_scan w t) = false).
  { destruct (existsb (Z.eqb a) (i2c_scan w t)) eqn:E; [|reflexivity].
    apply existsb_eqb_In in E. contradiction. }
  rewrite (initialize_absent self w a Ha fuel t Hscan).
  repeat split.
Qed.

(* ================================================================== *)
(** ** Decoding the result-info value *)
(* ================================================================== *)

Lemma length_append (s1 s2 : string) :
  String.length (s1 ++ s2) = (String.length s1 + String.length s2)%nat.
Proof. induction s1 as [|c s1 IH]; simpl; [reflexivity | now rewrite IH]. Qed.

Lemma binary_append s1 s2 : binary s1 -> binary s2 -> binary (s1 ++ s2).
Proof.
  induction s1 as [|c s1 IH]; simpl; [tauto|].
  intros [Hc H1] H2. split; [exact Hc | now apply IH].
Qed.

Lemma binary_bin_pos p : binary (Py.bin_pos p) /\ Py.bin_pos p <> "".
Proof.
  induction p as [p [IH Hne] | p [IH Hne] |]; simpl.
  - split; [apply binary_append; simpl; tauto|].
    destruct (Py.bin_pos p); [contradiction | discriminate].
  - split; [apply binary_append; simpl; tauto|].
    destruct (Py.bin_pos p); [contradiction | discriminate].
  - split; [tauto | discriminate].
Qed.

Lemma binary_reversed s : binary s -> binary (Py.reversed s).
Proof.
  induction s as [|c s IH]; simpl; [tauto|].
  intros [Hc Hs]. apply binary_append; simpl; tauto.
Qed.

Lemma binary_zeros n : binary (Py.repeat_str "0" n).
Proof.
  unfold Py.repeat_str. induction (Z.to_nat n) as [|k IH]; simpl; tauto.
Qed.

Lemma length_zeros n : String.length (Py.repeat_str "0" n) = Z.to_nat n.
Proof.
  unfold Py.repeat_str. induction (Z.to_nat n) as [|k IH]; [reflexivity|].
  cbn [Nat.iter nat_rect append String.length]. now f_equal.
Qed.

Lemma binary_take n : forall s, binary s -> binary (Py.take n s).
Proof.
  induction n as [|n IH]; intros [|c s]; simpl; try tauto.
  intros [Hc Hs]. split; [exact Hc | now apply IH].
Qed.

Lemma binary_drop n : forall s, binary s -> binary (Py.drop n s).
Proof.
  induction n as [|n IH]; intros [|c s]; simpl; try tauto.
  intros [Hc Hs]. now apply IH.
Qed.

Lemma length_take n : forall s,
  String.length (Py.take n s) = Nat.min n (String.length s).
Proof.
  induction n as [|n IH]; intros [|c s]; simpl; try reflexivity.
  now rewrite IH.
Qed.

Lemma length_drop n : forall s,
  String.length (Py.drop n s) = (String.length s - n)%nat.
Proof.
  induction n as [|n IH]; intros [|c s]; simpl; try reflexivity.
  apply IH.
Qed.

Lemma digits_acc_binary s : forall acc,
  binary s -> exists v, Py.digits_acc 2 s acc = Some v.
Proof.
  induction s as [|c s IH]; intros acc; simpl.
  - intros _. now exists acc.
  - intros [[-> | ->] Hs]; apply IH; exact Hs.
Qed.

Lemma int2_binary s :
  binary s -> s <> "" -> exists v, Py.int2 s = Some v.
Proof.
  intros Hb Hne. destruct s as [|c s]; [contradiction|].
  assert (Hd : exists v, Py.digits_acc 2 (String c s) 0 = Some v)
    by now apply digits_acc_binary.
  destruct Hb as [Hc Hs].
  destruct s as [|c2 s]; [destruct Hc as [-> | ->]; exact Hd|].
  destruct Hs as [Hc2 _].
  destruct Hc as [-> | ->]; destruct Hc2 as [-> | ->]; exact Hd.
Qed.

(** The decoding never raises on a value read from the bus. *)
Lemma decode_result_info_total (raw : Z) :
  0 <= raw -> exists reliabilty status,
    decode_result_info raw = Some (reliabilty, status).
Proof.
  intros Hraw. unfold decode_result_info.
  set (digits := Py.reversed (Py.drop 2 (Py.bin raw))).
  assert (Hbin : binary digits).
  { apply binary_reversed. destruct raw as [|p|p]; [simpl; tauto | | lia].
    exact (proj1 (binary_bin_pos p)). }
  set (padded := (digits ++ Py.repeat_str "0" (8 - Py.len digits))%string).
  assert (Hpad : binary padded)
    by (apply binary_append; [exact Hbin | apply binary_zeros]).
  assert (Hlen : (8 <= String.length padded)%nat).
  { unfold padded. rewrite length_append, length_zeros. unfold Py.len. lia. }
  destruct (int2_binary (Py.slice 0 6 padded)) as [rel Hrel].
  { apply binary_take, binary_drop, Hpad. }
  { intros E. apply (f_equal String.length) in E. unfold Py.slice in E.
    rewrite length_take, length_drop in E. cbn [String.length] in E. lia. }
  destruct (int2_binary (Py.slice 6 8 padded)) as [st Hst].
  { apply binary_take, binary_drop, Hpad. }
  { intros E. apply (f_equal String.length) in E. unfold Py.slice in E.
    rewrite length_take, length_drop in E. cbn [String.length] in E. lia. }
  exists rel, st. now rewrite Hrel, Hst.
Qed.

Lemma from_bytes_nonneg bs order : 0 <= Py.from_bytes bs order.
Proof.
  assert (Hb : forall b, 0 <= Z_of_byte b) by (intros b; apply N2Z.is_nonneg).
  destruct order; unfold Py.from_bytes.
  - unfold Py.from_bytes_little.
    induction bs as [|b bs IH]; cbn [fold_right]; [lia|].
    specialize (Hb b). lia.
  - unfold Py.from_bytes_big.
    assert (H : forall acc, 0 <= acc ->
              0 <= fold_left (fun acc b => acc * 256 + Z_of_byte b) bs acc).
    { induction bs as [|b bs IH]; cbn [fold_left]; intros acc Hacc;
        [exact Hacc|].
      apply IH. specialize (Hb b). lia. }
    apply H. lia.
Qed.

Lemma from_bytes_single b order : Py.from_bytes [b] order = Z_of_byte b.
Proof.
  destruct order; cbn [Py.from_bytes Py.from_bytes_little Py.from_bytes_big
                       fold_right fold_left]; lia.
Qed.

(* ================================================================== *)
(** ** enable_interrupt and clear_interrupt_flag *)
(* ================================================================== *)

Section InterruptRuns.

Variables (self : TMF8805) (w : World) (a : Z).
Hypothesis address_ok : Py.int0 (address self) = Some a.

Lemma interrupt_write_ok target r t buf :
  Py.int0 target = Some r ->
  let d := i2c_readfrom_mem w t a 225 1 in
  Py.fromhex (hex_digits_of (Py.str (interrupt_value w d))) = Some buf ->
  (value <- read_single_byte self REGISTER_INT_STATUS ;;
   mask <- value_of (Py.int0 INTERRUPT_MASK) ;;
   let value := Z.lor value mask in
   write_bytes self target (Py.str value)) w t =
    (Ok tt, [ERead a 225 1 d; EWrite a r buf]).
Proof.
  intros Hr d Hbuf.
  erewrite bind_run;
    [| apply (read_single_byte_run self w a address_ok REGISTER_INT_STATUS 225);
       reflexivity |].
  2:{ cbv zeta. erewrite bind_run;
        [| apply (hex_to_dec_run INTERRUPT_MASK 1); reflexivity |].
      2:{ cbv zeta. apply (write_bytes_run self w a address_ok _ _ r buf).
          - exact Hr.
          - exact Hbuf. }
      reflexivity. }
  reflexivity.
Qed.

Lemma interrupt_write_raise target r t :
  Py.int0 target = Some r ->
  let d := i2c_readfrom_mem w t a 225 1 in
  Py.fromhex (hex_digits_of (Py.str (interrupt_value w d))) = None ->
  (value <- read_single_byte self REGISTER_INT_STATUS ;;
   mask <- value_of (Py.int0 INTERRUPT_MASK) ;;
   let value := Z.lor value mask in
   write_bytes self target (Py.str value)) w t =
    (Raise ValueError, [ERead a 225 1 d]).
Proof.
  intros Hr d Hbuf.
  erewrite bind_run;
    [| apply (read_single_byte_run self w a address_ok REGISTER_INT_STATUS 225);
       reflexivity |].
  2:{ cbv zeta. erewrite bind_run;
        [| apply (hex_to_dec_run INTERRUPT_MASK 1); reflexivity |].
      2:{ cbv zeta. apply (write_bytes_raise self w a address_ok _ _ r).
          - exact Hr.
          - exact Hbuf. }
      reflexivity. }
  reflexivity.
Qed.

(** [enable_interrupt] either writes the bytes that [bytes.fromhex] makes
    of the decimal string, or raises before writing. *)
Lemma enable_interrupt_cases t :
  let d := i2c_readfrom_mem w t a 225 1 in
  (exists buf,
      Py.fromhex (hex_digits_of (Py.str (interrupt_value w d))) = Some buf /\
      enable_interrupt self w t =
        (Ok tt, [ERead a 225 1 d; EWrite a 226 buf])) \/
  (Py.fromhex (hex_digits_of (Py.str (interrupt_value w d))) = None /\
   enable_interrupt self w t = (Raise ValueError, [ERead a 225 1 d])).
Proof.
  intros d.
  destruct (Py.fromhex (hex_digits_of (Py.str (interrupt_value w d))))
    as [buf|] eqn:Hbuf.
  - left. exists buf. split; [reflexivity|].
    apply (interrupt_write_ok REGISTER_INT_ENAB 226); [reflexivity | exact Hbuf].
  - right. split; [reflexivity|].
    apply (interrupt_write_raise REGISTER_INT_ENAB 226);
      [reflexivity | exact Hbuf].
Qed.

Lemma clear_interrupt_flag_cases t :
  let d := i2c_readfrom_mem w t a 225 1 in
  (exists buf,
      Py.fromhex (hex_digits_of (Py.str (interrupt_value w d))) = Some buf /\
      clear_interrupt_flag self w t =
        (Ok tt, [ERead a 225 1 d; EWrite a 225 buf])) \/
  (Py.fromhex (hex_digits_of (Py.str (interrupt_value w d))) = None /\
   clear_interrupt_flag self w t = (Raise ValueError, [ERead a 225 1 d])).
Proof.
  intros d.
  destruct (Py.fromhex (hex_digits_of (Py.str (interrupt_value w d))))
    as [buf|] eqn:Hbuf.
  - left. exists buf. split; [reflexivity|].
    apply (interrupt_write_ok REGISTER_INT_STATUS 225);
      [reflexivity | exact Hbuf].
  - right. split; [reflexivity|].
    apply (interrupt_write_raise REGISTER_INT_STATUS 225);
      [reflexivity | exact Hbuf].
Qed.

End InterruptRuns.

(* ================================================================== *)
(** ** get_measurement *)
(* ================================================================== *)

Section MeasurementRuns.

Variables (self : TMF8805) (w : World) (a : Z).
Hypothesis address_ok : Py.int0 (address self) = Some a.

Lemma read_result_info_run t :
  exists raw reliabilty status,
    read_single_byte self REGISTER_RESULT_INFO w t =
      (Ok (Py.from_bytes raw (sys_byteorder w)), [ERead a 33 1 raw]) /\
    decode_result_info (Py.from_bytes raw (sys_byteorder w))
      = Some (reliabilty, status).
Proof.
  set (raw := i2c_readfrom_mem w t a 33 1).
  destruct (decode_result_info_total (Py.from_bytes raw (sys_byteorder w)))
    as [rel [st Hdec]]; [apply from_bytes_nonneg|].
  exists raw, rel, st. split; [| exact Hdec].
  now rewrite (read_single_byte_run self w a address_ok REGISTER_RESULT_INFO 33).
Qed.

Lemma load_measurement_application_run t :
  load_measurement_application self w t = (Ok tt, [EWrite a 2 [xc0]]).
Proof.
  apply (write_bytes_run self w a address_ok _ _ 2); reflexivity.
Qed.

Lemma start_measurement_application_run t :
  start_measurement_application self w t = (Ok tt, [EWrite a 16 [x02]]).
Proof.
  apply (write_bytes_run self w a address_ok _ _ 16); reflexivity.
Qed.

Ltac normalise_events R :=
  unfold measurement_prelude in R;
  repeat (progress (cbn [app] in R; rewrite <- ?app_assoc in R));
  repeat (progress (cbn [app]; rewrite <- ?app_assoc)).

Lemma get_measurement_run fuel t :
  (500 <= fuel)%nat ->
  exists out evs,
    get_measurement self fuel w t = (out, evs) /\
    measurement_run self w a out evs.
Proof.
  intros Hfuel. unfold get_measurement.
  edestruct (is_application_ready_run self w a address_ok fuel)
    as [ds1 [b1 [H1 P1]]]; [exact Hfuel|].
  destruct b1.
  2:{ (* the application never shows up *)
      eexists _, _. split.
      - erewrite bind_run; [| apply load_measurement_application_run |].
        2:{ erewrite bind_run; [| exact H1 | reflexivity]. reflexivity. }
        reflexivity.
      - apply run_application_timeout. exact P1. }
  edestruct (enable_interrupt_cases self w a address_ok)
    as [[buf [Hbuf Hint]] | [Hbuf Hint]].
  2:{ (* the decimal string is no hex string *)
      eexists _, _. split.
      - erewrite bind_run; [| apply load_measurement_application_run |].
        2:{ erewrite bind_run; [| exact H1 |].
            2:{ cbn [negb].
                erewrite bind_run;
                  [| apply start_measurement_application_run |].
                2:{ apply bind_raise. exact Hint. }
                reflexivity. }
            reflexivity. }
        reflexivity.
      - pose proof (run_interrupt_raises self w a ds1 _ P1 Hbuf) as R.
        normalise_events R. exact R. }
  edestruct (is_data_available_run self w a address_ok fuel)
    as [ds2 [b2 [H2 P2]]]; [exact Hfuel|].
  destruct b2.
  2:{ (* no data within the budget *)
      eexists _, _. split.
      - erewrite bind_run; [| apply load_measurement_application_run |].
        2:{ erewrite bind_run; [| exact H1 |].
            2:{ cbn [negb].
                erewrite bind_run;
                  [| apply start_measurement_application_run |].
                2:{ erewrite bind_run; [| exact Hint |].
                    2:{ erewrite bind_run; [| exact H2 | reflexivity].
                        reflexivity. }
                    reflexivity. }
                reflexivity. }
            reflexivity. }
        reflexivity.
      - pose proof (run_data_timeout self w a ds1 _ buf ds2 P1 Hbuf P2) as R.
        normalise_events R. exact R. }
  edestruct read_result_info_run as [raw [rel [st [Hraw Hdec]]]].
  destruct (debug self) eqn:Hdbg; (eexists _, _; split).
  1,3: erewrite bind_run; [| apply load_measurement_application_run |];
    [| erewrite bind_run; [| exact H1 |];
       [| cbn [negb];
          erewrite bind_run; [| apply start_measurement_application_run |];
          [| erewrite bind_run; [| exact Hint |];
             [| erewrite bind_run; [| exact H2 |];
                [| cbn [negb];
                   erewrite bind_run; [| reflexivity |];
                   [| erewrite bind_run; [| exact Hraw |];
                      [| rewrite Hdec;
                         erewrite bind_run; [| reflexivity |];
                         [| cbv iota beta;
                            erewrite bind_run; [| reflexivity |];
                            [| erewrite bind_run;
                               [| apply (read_single_byte_run self w a
                                    address_ok REGISTER_DISTANCE_PEAK_1 35);
                                  reflexivity |];
                               [| cbv zeta;
                                  erewrite bind_run;
                                  [| apply (read_single_byte_run self w a
                                       address_ok REGISTER_DISTANCE_PEAK_0 34);
                                     reflexivity |];
                                  [| cbv zeta;
                                     erewrite bind_run;
                                       [| reflexivity | reflexivity];
                                     reflexivity ];
                                  reflexivity ];
                               reflexivity ];
                            reflexivity ];
                         reflexivity ];
                      reflexivity ];
                   reflexivity ];
                reflexivity ];
             reflexivity ];
          reflexivity ];
       reflexivity ];
    reflexivity.
  all: match type of Hbuf with
       | context [interrupt_value w ?d] =>
           epose proof (run_distance self w a ds1 d buf ds2 raw _ _ rel st
                          P1 Hbuf P2 Hdec) as R
       end;
    rewrite Hdbg in R; normalise_events R; exact R.
Qed.

End MeasurementRuns.

(** *** Which registers a measurement reads *)

Lemma reads_of_nil r : reads_of r [] = [].
Proof. reflexivity. Qed.

Lemma reads_of_cons r e l :
  reads_of r (e :: l) =
    match e with
    | ERead _ r' _ data => if r' =? r then [data] else []
    | _ => []
    end ++ reads_of r l.
Proof. reflexivity. Qed.

Ltac reads_simpl :=
  unfold measurement_prelude;
  repeat (rewrite reads_of_app || rewrite reads_of_cons
          || rewrite reads_of_nil || rewrite reads_of_application_iter
          || rewrite reads_of_result_iter || rewrite reads_of_cpu_ready_iter);
  cbn [Z.eqb Pos.eqb app]; rewrite ?app_nil_r.

(** The answers a measurement got from the application-id register are
    those of its first poll; the poll decides whether it goes on. *)
Lemma measurement_run_application self w a out evs :
  measurement_run self w a out evs ->
  exists b, polled 500 (map (application_seen w) (reads_of 0 evs)) b /\
            (b = false -> out = Ok MFalse).
Proof.
  intros [ds1 P1 | ds1 dint P1 Hbuf | ds1 dint buf ds2 P1 Hbuf P2
          | ds1 dint buf ds2 raw hi lo rel st P1 Hbuf P2 Hdec].
  - exists false. split; [| reflexivity]. now reads_simpl.
  - exists true. split; [| discriminate]. now reads_simpl.
  - exists true. split; [| discriminate]. now reads_simpl.
  - exists true. split; [| discriminate].
    destruct (debug self); now reads_simpl.
Qed.

(** Likewise for the register-contents register and the data poll; when
    the call ends before that poll, nothing is read from the register. *)
Lemma measurement_run_data self w a out evs :
  measurement_run self w a out evs ->
  reads_of 30 evs = [] \/
  exists b, polled 500 (map (result_seen w) (reads_of 30 evs)) b /\
            (b = false -> out = Ok MFalse).
Proof.
  intros [ds1 P1 | ds1 dint P1 Hbuf | ds1 dint buf ds2 P1 Hbuf P2
          | ds1 dint buf ds2 raw hi lo rel st P1 Hbuf P2 Hdec].
  - left. now reads_simpl.
  - left. now reads_simpl.
  - right. exists false. split; [| reflexivity]. now reads_simpl.
  - right. exists true. split; [| discriminate].
    destruct (debug self); now reads_simpl.
Qed.

(** A measurement that returns a distance has read the result-info
    register and each peak register once, and the distance is made of the
    two peak answers. *)
Lemma measurement_run_distance self w a d evs :
  measurement_run self w a (Ok (MDistance d)) evs ->
  exists raw hi lo reliabilty status,
    reads_of 33 evs = [raw] /\ reads_of 35 evs = [hi] /\
    reads_of 34 evs = [lo] /\
    decode_result_info (Py.from_bytes raw (sys_byteorder w))
      = Some (reliabilty, status) /\
    d = Z.shiftl (Py.from_bytes hi (sys_byteorder w)) 8
        + Py.from_bytes lo (sys_byteorder w) /\
    (debug self = true ->
     last evs EFeed =
       EPrint (measurement_message d reliabilty status
                 (Py.from_bytes hi (sys_byteorder w))
                 (Py.from_bytes lo (sys_byteorder w)))).
Proof.
  intros H. inversion H as [ | | | ds1 dint buf ds2 raw hi lo rel st P1 Hbuf P2
                               Hdec p1 p0 dist Hd Hevs]; subst.
  exists raw, hi, lo, rel, st.
  repeat split; try (destruct (debug self); now reads_simpl); try exact Hdec.
  intros Hdbg. rewrite Hdbg.
  unfold measurement_prelude.
  repeat (rewrite app_comm_cons || rewrite app_assoc).
  apply last_last.
Qed.

Lemma get_measurement_bad_address self fuel w t :
  Py.int0 (address self) = None ->
  get_measurement self fuel w t = (Raise ValueError, []).
Proof.
  intros Hbad.
  unfold get_measurement, load_measurement_application.
  rewrite write_bytes_unfold. unfold hex_to_dec, bind. now rewrite Hbad.
Qed.

(** Every call of [get_measurement] goes one of the ways of
    [measurement_run], unless the address is no literal. *)
Lemma get_measurement_cases self fuel w t :
  (500 <= fuel)%nat ->
  (Py.int0 (address self) = None /\
   get_measurement self fuel w t = (Raise ValueError, [])) \/
  (exists a,
      Py.int0 (address self) = Some a /\
      measurement_run self w a (fst (get_measurement self fuel w t))
        (snd (get_measurement self fuel w t))).
Proof.
  intros Hfuel. destruct (Py.int0 (address self)) as [a|] eqn:Ha.
  - right. exists a. split; [reflexivity|].
    destruct (get_measurement_run self w a Ha fuel t Hfuel)
      as [out [evs [Hrun Hcase]]].
    now rewrite Hrun.
  - left. split; [reflexivity|]. now apply get_measurement_bad_address.
Qed.

Lemma Z_of_byte_range (b : byte) : 0 <= Z_of_byte b < 256.
Proof.
  unfold Z_of_byte. pose proof (Byte.to_N_bounded b). lia.
Qed.

(** C1. A call of [get_measurement] that returns a distance has read the
    peak-high register 0x23 and the peak-low register 0x22 once each, and
    the distance is the first answer shifted left by eight bits plus the
    second.  For single-byte answers [h] and [l] that is the 16-bit value
    [h * 256 + l], with the byte from 0x23 as the high byte. *)
Theorem get_measurement_distance :
  forall self fuel w t d,
    (500 <= fuel)%nat ->
    fst (get_measurement self fuel w t) = Ok (MDistance d) ->
    let evs := snd (get_measurement self fuel w t) in
    (exists hi lo,
        reads_of 35 evs = [hi] /\ reads_of 34 evs = [lo] /\
        d = Py.from_bytes hi (sys_byteorder w) * 256
            + Py.from_bytes lo (sys_byteorder w)) /\
    (forall h l : byte,
        reads_of 35 evs = [[h]] -> reads_of 34 evs = [[l]] ->
        d = Z_of_byte h * 256 + Z_of_byte l /\ 0 <= d < 65536).
Proof.
  intros self fuel w t d Hfuel Hout evs.
  destruct (get_measurement_cases self fuel w t Hfuel)
    as [[_ Hrun] | [a [Ha Hcase]]].
  { rewrite Hrun in Hout. discriminate. }
  rewrite Hout in Hcase. fold evs in Hcase.
  destruct (measurement_run_distance self w a d evs Hcase)
    as [raw [hi [lo [rel [st [_ [Hhi [Hlo [_ [Hd _]]]]]]]]]].
  rewrite Z.shiftl_mul_pow2 in Hd by lia. change (2 ^ 8) with 256 in Hd.
  split.
  - exists hi, lo. auto.
  - intros h l Hh Hl. rewrite Hhi in Hh. rewrite Hlo in Hl.
    injection Hh as ->. injection Hl as ->.
    rewrite !from_bytes_single in Hd.
    pose proof (Z_of_byte_range h). pose proof (Z_of_byte_range l).
    split; lia.
Qed.

(** The end-to-end test of the suite, on its own transport fixture (every
    answer two bytes long): [initialize] succeeds and the measurement that
    follows returns 1250. *)
Example measurement_end_to_end :
  let self := Mock.tmf8805_instance in
  let w := Mock.world Mock.CORRECT_MEASUREMENT in
  fst (initialize self 500 w []) = Ok true /\
  fst (get_measurement self 500 w (snd (initialize self 500 w [])))
    = Ok (MDistance 1250).
Proof. vm_compute. split; reflexivity. Qed.

Lemma get_measurement_distance_witness :
  let w := Mock.device Mock.CORRECT_MEASUREMENT in
  let evs := snd (get_measurement Mock.tmf8805_instance 500 w []) in
  (exists hi lo,
      reads_of 35 evs = [hi] /\ reads_of 34 evs = [lo] /\
      1250 = Py.from_bytes hi (sys_byteorder w) * 256
             + Py.from_bytes lo (sys_byteorder w)) /\
  (forall h l : byte,
      reads_of 35 evs = [[h]] -> reads_of 34 evs = [[l]] ->
      1250 = Z_of_byte h * 256 + Z_of_byte l /\ 0 <= 1250 < 65536).
Proof.
  apply (get_measurement_distance Mock.tmf8805_instance 500
           (Mock.device Mock.CORRECT_MEASUREMENT) [] 1250).
  - lia.
  - vm_compute. reflexivity.
Defined.

(* ================================================================== *)
(** ** The result-info byte in the words of the specification *)
(* ================================================================== *)

Lemma bits8_value (b : byte) : bits_value (bits8 b) = Z_of_byte b.
Proof. destruct b; vm_compute; reflexivity. Qed.

Lemma decode_result_info_byte (b : byte) :
  decode_result_info (Z_of_byte b) = Some (reversed_split b).
Proof. destruct b; vm_compute; reflexivity. Qed.

Lemma reversed_split_bits (b : byte) :
  let bit i := Z.b2z (Z.testbit (Z_of_byte b) i) in
  reversed_split b =
    (32 * bit 0 + 16 * bit 1 + 8 * bit 2 + 4 * bit 3 + 2 * bit 4 + bit 5,
     2 * bit 6 + bit 7).
Proof. destruct b; vm_compute; reflexivity. Qed.

Lemma reversed_split_range (b : byte) :
  0 <= fst (reversed_split b) < 64 /\ 0 <= snd (reversed_split b) < 4.
Proof.
  destruct b; vm_compute; repeat split;
    (reflexivity || (intro; discriminate)).
Qed.

(** C2. The result-info byte is decoded by reversing the bit order of its
    8-bit representation and splitting the reversed string into its first
    six bits, the reliability, and its last two, the status.  The
    reliability is thus made of the six low-order bits of the byte (bit 0
    weighs 32, bit 5 weighs 1) and the status of the two high-order bits
    (bit 6 weighs 2, bit 7 weighs 1); the byte 63 gives reliability 63 and
    status 0.  A measurement that returned a distance has decoded the one
    answer of the result-info register in this way, and reports both
    fields when [debug] is set. *)
Theorem result_info_decoding :
  (forall b : byte,
      decode_result_info (Z_of_byte b) = Some (reversed_split b) /\
      let bit i := Z.b2z (Z.testbit (Z_of_byte b) i) in
      fst (reversed_split b)
        = 32 * bit 0 + 16 * bit 1 + 8 * bit 2 + 4 * bit 3 + 2 * bit 4 + bit 5 /\
      snd (reversed_split b) = 2 * bit 6 + bit 7 /\
      0 <= fst (reversed_split b) < 64 /\ 0 <= snd (reversed_split b) < 4) /\
  decode_result_info 63 = Some (63, 0) /\
  (forall self fuel w t d (b : byte),
      (500 <= fuel)%nat ->
      fst (get_measurement self fuel w t) = Ok (MDistance d) ->
      let evs := snd (get_measurement self fuel w t) in
      reads_of 33 evs = [[b]] ->
      debug self = true ->
      exists peak_1 peak_0,
        last evs EFeed =
          EPrint (measurement_message d (fst (reversed_split b))
                    (snd (reversed_split b)) peak_1 peak_0)).
Proof.
  split; [| split].
  - intros b. split; [apply decode_result_info_byte|].
    pose proof (reversed_split_bits b) as Hbits.
    pose proof (reversed_split_range b) as Hrange.
    cbv zeta in Hbits |- *. rewrite Hbits in Hrange |- *.
    cbn [fst snd] in Hrange |- *. tauto.
  - reflexivity.
  - intros self fuel w t d b Hfuel Hout evs Hraw Hdbg.
    destruct (get_measurement_cases self fuel w t Hfuel)
      as [[_ Hrun] | [a [Ha Hcase]]].
    { rewrite Hrun in Hout. discriminate. }
    rewrite Hout in Hcase. fold evs in Hcase.
    destruct (measurement_run_distance self w a d evs Hcase)
      as [raw [hi [lo [rel [st [Hr [_ [_ [Hdec [_ Hlast]]]]]]]]]].
    rewrite Hr in Hraw. injection Hraw as ->.
    rewrite from_bytes_single, decode_result_info_byte in Hdec.
    assert (E : reversed_split b = (rel, st)) by congruence.
    rewrite E. cbn [fst snd].
    eexists _, _. apply Hlast, Hdbg.
Qed.

Lemma result_info_decoding_witness :
  let w := Mock.device Mock.CORRECT_MEASUREMENT in
  let evs := snd (get_measurement Mock.tmf8805_instance 500 w []) in
  exists peak_1 peak_0,
    last evs EFeed =
      EPrint (measurement_message 1250 (fst (reversed_split x3f))
                (snd (reversed_split x3f)) peak_1 peak_0).
Proof.
  apply (proj2 (proj2 result_info_decoding) Mock.tmf8805_instance 500%nat
           (Mock.device Mock.CORRECT_MEASUREMENT) [] 1250 x3f).
  - lia.
  - vm_compute. reflexivity.
  - vm_compute. reflexivity.
  - reflexivity.
Defined.

(* ================================================================== *)
(** ** Timeouts *)
(* ================================================================== *)

Lemma repeat_not_nil {A} (x : A) (n : nat) : (0 < n)%nat -> [] <> repeat x n.
Proof. destruct n; [lia | discriminate]. Qed.

(** C5. [initialize] returns [False] when all 200 reads of the enable
    register that the CPU-ready poll may make show the ready bit clear;
    [get_measurement] returns [False] when the 500 reads of the
    application-ready poll never show the application, and when the 500
    reads of the data-available poll never show the result marker.  In
    each case the call returns; it does not raise. *)
Theorem timeouts_are_returned_as_false :
  forall self fuel w t,
    (500 <= fuel)%nat ->
    (map (cpu_ready_seen w) (reads_of 224 (snd (initialize self fuel w t)))
       = repeat false 200 ->
     fst (initialize self fuel w t) = Ok false) /\
    (map (application_seen w)
         (reads_of 0 (snd (get_measurement self fuel w t)))
       = repeat false 500 ->
     fst (get_measurement self fuel w t) = Ok MFalse) /\
    (map (result_seen w)
         (reads_of 30 (snd (get_measurement self fuel w t)))
       = repeat false 500 ->
     fst (get_measurement self fuel w t) = Ok MFalse).
Proof.
  intros self fuel w t Hfuel. split; [| split].
  - destruct (Py.int0 (address self)) as [a|] eqn:Ha.
    2:{ rewrite (initialize_bad_address self fuel w t Ha). cbn [fst snd reads_of flat_map map].
        intros H. now apply repeat_not_nil in H; [| lia]. }
    destruct (existsb (Z.eqb a) (i2c_scan w t)) eqn:Hscan.
    2:{ now rewrite (initialize_absent self w a Ha fuel t Hscan). }
    destruct (initialize_present self w a Ha fuel t) as [ds [b [Hrun Hp]]];
      [lia | exact Hscan |].
    rewrite Hrun. cbn [fst snd]. intros Hseen.
    replace (reads_of 224 _) with ds in Hseen
      by (destruct b; now reads_simpl).
    apply (polled_false_iff _ _ _ Hp) in Hseen. now subst b.
  - destruct (get_measurement_cases self fuel w t Hfuel)
      as [[_ Hrun] | [a [Ha Hcase]]].
    { rewrite Hrun. cbn [fst snd reads_of flat_map map].
      intros H. now apply repeat_not_nil in H; [| lia]. }
    destruct (measurement_run_application _ _ _ _ _ Hcase) as [b [Hp Hout]].
    intros Hseen. apply Hout, (polled_false_iff _ _ _ Hp), Hseen.
  - destruct (get_measurement_cases self fuel w t Hfuel)
      as [[_ Hrun] | [a [Ha Hcase]]].
    { rewrite Hrun. cbn [fst snd reads_of flat_map map].
      intros H. now apply repeat_not_nil in H; [| lia]. }
    destruct (measurement_run_data _ _ _ _ _ Hcase)
      as [Hnone | [b [Hp Hout]]]; intros Hseen.
    + rewrite Hnone in Hseen. cbn [map] in Hseen.
      now apply repeat_not_nil in Hseen; [| lia].
    + apply Hout, (polled_false_iff _ _ _ Hp), Hseen.
Qed.

Lemma timeouts_are_returned_as_false_witness :
  fst (initialize Mock.tmf8805_instance 500
         (Mock.device Mock.CPU_READY_TIMEOUT) []) = Ok false /\
  fst (get_measurement Mock.tmf8805_instance 500
         (Mock.device Mock.APPLICATION_READY_TIMEOUT) []) = Ok MFalse /\
  fst (get_measurement Mock.tmf8805_instance 500
         (Mock.device Mock.DATA_AVAILABLE_TIMEOUT) []) = Ok MFalse.
Proof.
  assert (Hfuel : (500 <= 500)%nat) by lia.
  split; [| split].
  - apply (proj1 (timeouts_are_returned_as_false Mock.tmf8805_instance 500
                    (Mock.device Mock.CPU_READY_TIMEOUT) [] Hfuel)).
    vm_compute. reflexivity.
  - apply (proj1 (proj2 (timeouts_are_returned_as_false
                           Mock.tmf8805_instance 500
                           (Mock.device Mock.APPLICATION_READY_TIMEOUT) []
                           Hfuel))).
    vm_compute. reflexivity.
  - apply (proj2 (proj2 (timeouts_are_returned_as_false
                           Mock.tmf8805_instance 500
                           (Mock.device Mock.DATA_AVAILABLE_TIMEOUT) []
                           Hfuel))).
    vm_compute. reflexivity.
Defined.

Lemma polling_loops_run_to_completion_witness :
  let self := Mock.tmf8805_instance in
  let w := Mock.device Mock.CORRECT_MEASUREMENT in
  (exists b evs,
      is_cpu_ready self 500 w [] = (Ok b, evs) /\
      let seen := map (cpu_ready_seen w) (reads_of 224 evs) in
      polled 200 seen b /\ (List.length seen <= 200)%nat /\
      (b = false <-> seen = repeat false 200)) /\
  (exists b evs,
      is_application_ready self 500 w [] = (Ok b, evs) /\
      let seen := map (application_seen w) (reads_of 0 evs) in
      polled 500 seen b /\ (List.length seen <= 500)%nat /\
      (b = false <-> seen = repeat false 500)) /\
  (exists b evs,
      is_data_available self 500 w [] = (Ok b, evs) /\
      let seen := map (result_seen w) (reads_of 30 evs) in
      polled 500 seen b /\ (List.length seen <= 500)%nat /\
      (b = false <-> seen = repeat false 500)).
Proof.
  apply (polling_loops_run_to_completion Mock.tmf8805_instance
           (Mock.device Mock.CORRECT_MEASUREMENT) 65 500 []).
  - reflexivity.
  - lia.
Defined.

Lemma initialize_absent_device_short_circuits_witness :
  let self := Mock.tmf8805_instance in
  let w := Mock.world Mock.NOT_CONNECTED in
  initialize self 500 w [] =
    (Ok false, [EScan (i2c_scan w []); EPrint not_connected_message]) /\
  writes_of (snd (initialize self 500 w [])) = [] /\
  (forall r, reads_of r (snd (initialize self 500 w [])) = []).
Proof.
  apply (initialize_absent_device_short_circuits Mock.tmf8805_instance 500
           (Mock.world Mock.NOT_CONNECTED) [] 65).
  - reflexivity.
  - simpl. tauto.
Defined.

(* ================================================================== *)
(** ** get_status *)
(* ================================================================== *)

Lemma get_status_run self w a t :
  Py.int0 (address self) = Some a ->
  get_status self w t =
    (let data := i2c_readfrom_mem w t a 29 1 in
     let status := Py.from_bytes data (sys_byteorder w) in
     (Ok (if status =? 39
          then (missing_calibration_code, missing_calibration_description)
          else (Py.str status, "N/A")),
      [ERead a 29 1 data])).
Proof.
  intros Ha. unfold get_status. cbv zeta.
  destruct (Py.from_bytes (i2c_readfrom_mem w t a 29 1) (sys_byteorder w) =? 39)
    eqn:E;
    (erewrite bind_run;
     [| apply (read_single_byte_run self w a Ha REGISTER_STATUS 29);
        reflexivity
      | cbv zeta; unfold MISSING_FACTORY_CALIBRATION; rewrite E; reflexivity]);
    reflexivity.
Qed.

(** The decimal numeral [str] makes of a byte reads back as the byte. *)
Lemma str_byte_reads_back (b : byte) :
  Py.int0 (Py.str (Z_of_byte b)) = Some (Z_of_byte b).
Proof. destruct b; vm_compute; reflexivity. Qed.

(** C8. For every byte [b] read from the status register, [get_status]
    returns the pair of the code "ErrMissingFactCal" and its description
    exactly when [b] is 39; otherwise it returns the decimal numeral of [b]
    as the code and "N/A" as the description. *)
Theorem get_status_decodes :
  forall self w t a (b : byte),
    Py.int0 (address self) = Some a ->
    i2c_readfrom_mem w t a 29 1 = [b] ->
    get_status self w t =
      (Ok (if Z_of_byte b =? 39
           then (missing_calibration_code, missing_calibration_description)
           else (Py.str (Z_of_byte b), "N/A")),
       [ERead a 29 1 [b]]) /\
    (fst (get_status self w t)
       = Ok (missing_calibration_code, missing_calibration_description)
     <-> Z_of_byte b = 39) /\
    Py.int0 (Py.str (Z_of_byte b)) = Some (Z_of_byte b).
Proof.
  intros self w t a b Ha Hread.
  assert (Hrun := get_status_run self w a t Ha).
  cbv zeta in Hrun. rewrite Hread, from_bytes_single in Hrun.
  split; [exact Hrun | split; [| apply str_byte_reads_back]].
  rewrite Hrun. cbn [fst].
  destruct (Z.eqb_spec (Z_of_byte b) 39) as [E | E].
  - tauto.
  - split; [discriminate | contradiction].
Qed.

Lemma get_status_decodes_witness :
  let self := Mock.tmf8805_instance in
  let w := Mock.device Mock.CORRECT_MEASUREMENT in
  get_status self w [] =
    (Ok (if Z_of_byte x27 =? 39
         then (missing_calibration_code, missing_calibration_description)
         else (Py.str (Z_of_byte x27), "N/A")),
     [ERead 65 29 1 [x27]]) /\
  (fst (get_status self w [])
     = Ok (missing_calibration_code, missing_calibration_description)
   <-> Z_of_byte x27 = 39) /\
  Py.int0 (Py.str (Z_of_byte x27)) = Some (Z_of_byte x27).
Proof.
  apply (get_status_decodes Mock.tmf8805_instance
           (Mock.device Mock.CORRECT_MEASUREMENT) [] 65 x27);
    reflexivity.
Defined.

(** The fixture of the test suite: a two-byte answer holding 9999. *)
Example get_status_unknown :
  fst (get_status Mock.tmf8805_instance (Mock.world Mock.UNKNOWN_STATUS) [])
    = Ok ("9999", "N/A").
Proof. reflexivity. Qed.

(* ================================================================== *)
(** ** set_calibration and reset_cpu *)
(* ================================================================== *)

Lemma algo_state_bytes_values :
  map Py.int0 ALGO_STATE = map (fun b => Some (Z_of_byte b)) algo_state_bytes.
Proof. reflexivity. Qed.

Lemma set_calibration_run self w a t calibration_data :
  Py.int0 (address self) = Some a ->
  set_calibration self calibration_data w t =
    (Ok tt, [EWrite a 16 [x0b]; EWrite a 32 calibration_data;
             EWrite a 46 algo_state_bytes]).
Proof.
  intros Ha. unfold set_calibration.
  erewrite bind_run;
    [| apply (write_bytes_run self w a Ha _ _ 16 [x0b]); reflexivity |].
  2:{ erewrite bind_run; [| apply (hex_to_dec_run _ a), Ha |].
      2:{ erewrite bind_run;
            [| apply (hex_to_dec_run REGISTER_FACTORY_CALIB_0 32);
               reflexivity |].
          2:{ erewrite bind_run; [| reflexivity |].
              2:{ apply (write_bytes_run self w a Ha _ _ 46 algo_state_bytes);
                  reflexivity. }
              reflexivity. }
          reflexivity. }
      reflexivity. }
  reflexivity.
Qed.

(** C3, as the code has it.  For every calibration blob, in particular
    every blob of 14 bytes, [set_calibration] performs exactly three bus
    writes and nothing else, in this order: the byte 0x0B to the command
    register 0x10, the blob to the factory-calibration base register 0x20,
    and the eleven bytes of [ALGO_STATE] (B1 A9 02 and eight zero bytes) to
    the state-data write register 0x2E. *)
Theorem set_calibration_writes :
  forall self w t a (blob : bytes),
    Py.int0 (address self) = Some a ->
    set_calibration self blob w t =
      (Ok tt, [EWrite a 16 [x0b]; EWrite a 32 blob;
               EWrite a 46 algo_state_bytes]) /\
    writes_of (snd (set_calibration self blob w t)) =
      [(16, [x0b]); (32, blob); (46, algo_state_bytes)] /\
    List.length algo_state_bytes = 11%nat /\
    List.length ALGO_STATE = 11%nat /\
    map Py.int0 ALGO_STATE = map (fun b => Some (Z_of_byte b)) algo_state_bytes.
Proof.
  intros self w t a blob Ha.
  rewrite (set_calibration_run self w a t blob Ha).
  repeat split.
Qed.

Lemma set_calibration_writes_witness :
  let self := Mock.tmf8805_instance in
  let w := Mock.world Mock.PERFORM_CALIBRATION in
  let blob := repeat "A"%byte 14 in
  set_calibration self blob w [] =
    (Ok tt, [EWrite 65 16 [x0b]; EWrite 65 32 blob;
             EWrite 65 46 algo_state_bytes]) /\
  writes_of (snd (set_calibration self blob w [])) =
    [(16, [x0b]); (32, blob); (46, algo_state_bytes)] /\
  List.length algo_state_bytes = 11%nat /\
  List.length ALGO_STATE = 11%nat /\
  map Py.int0 ALGO_STATE = map (fun b => Some (Z_of_byte b)) algo_state_bytes.
Proof.
  apply (set_calibration_writes Mock.tmf8805_instance
           (Mock.world Mock.PERFORM_CALIBRATION) [] 65
           (repeat "A"%byte 14)).
  reflexivity.
Defined.

(** The third write of [set_calibration] does not carry ten entries: for
    the 14-byte blob of the test suite no payload of length 10 makes up
    the writes. *)
Lemma set_calibration_state_is_not_ten_entries :
  let self := Mock.tmf8805_instance in
  let w := Mock.world Mock.PERFORM_CALIBRATION in
  let blob := repeat "A"%byte 14 in
  List.length blob = 14%nat /\
  ~ (exists state : bytes,
        List.length state = 10%nat /\
        writes_of (snd (set_calibration self blob w [])) =
          [(16, [x0b]); (32, blob); (46, state)]).
Proof.
  split; [reflexivity|].
  intros [state [Hlen Hw]]. vm_compute in Hw.
  injection Hw as <-. discriminate Hlen.
Qed.

(** C4, what the code does.  [reset_cpu] writes the one byte [b"1"], the
    character '1' (0x31 = 0b00110001), to the enable register 0xE0: three
    bits are set (bits 0, 4 and 5), and the reset bit named by [CPU_RESET]
    (bit 7) is not among them. *)
Theorem reset_cpu_writes_character_one :
  forall w t,
    reset_cpu Mock.tmf8805_instance w t = (Ok tt, [EWrite 65 224 [x31]]) /\
    Z_of_byte x31 = 49 /\
    popcount8 (Z_of_byte x31) = 3%nat /\
    filter (Z.testbit (Z_of_byte x31)) [0; 1; 2; 3; 4; 5; 6; 7] = [0; 4; 5] /\
    Py.int0 CPU_RESET = Some 7 /\
    Z.testbit (Z_of_byte x31) 7 = false.
Proof.
  intros w t. split; [| repeat split].
  apply (reset_cpu_run Mock.tmf8805_instance w 65). reflexivity.
Qed.

(* ================================================================== *)
(** ** The byte written by enable_interrupt and clear_interrupt_flag *)
(* ================================================================== *)

Lemma interrupt_payload_byte (v : byte) :
  let m := Z.lor (Z_of_byte v) 1 in
  if m <? 100 then
    exists wb,
      interrupt_payload m = Some [wb] /\
      decimal_read_as_hex m = Some (Z_of_byte wb) /\
      Z_of_byte wb = 16 * (m / 10) + m mod 10
  else interrupt_payload m = None.
Proof.
  destruct v; cbv zeta;
    match goal with
    | |- context [?m <? 100] =>
        let b := eval vm_compute in (m <? 100) in
        change (m <? 100) with b; cbv iota
    end;
    try (vm_compute; reflexivity);
    match goal with
    | |- exists wb, interrupt_payload ?m = _ /\ _ =>
        let p := eval vm_compute in (interrupt_payload m) in
        match p with
        | Some [?wb] => exists wb; vm_compute; repeat split
        end
    end.
Qed.

Lemma decimal_as_hex_differs (m : Z) :
  0 <= m -> (16 * (m / 10) + m mod 10 = m <-> m <= 9).
Proof.
  intros Hm. pose proof (Z.div_mod m 10 ltac:(lia)) as Hdiv.
  pose proof (Z.mod_pos_bound m 10 ltac:(lia)) as Hmod.
  split; intros H.
  - assert (m / 10 = 0) by lia. lia.
  - rewrite (Z.div_small m 10), (Z.mod_small m 10) by lia. lia.
Qed.

(** C10. For every byte [v] read from the interrupt-status register, with
    [m = v | 0x01]: when [m < 100], [enable_interrupt] writes to the
    interrupt-enable register, and [clear_interrupt_flag] to the
    interrupt-status register, the one byte that the decimal string of [m]
    denotes as a hexadecimal numeral, [16 * (m / 10) + m mod 10], which is
    [m] only when [m <= 9]; when [m >= 100] both raise [ValueError] after
    the read, without writing.  So they raise exactly when [m >= 100]. *)
Theorem interrupt_value_is_written_as_decimal_read_as_hex :
  forall self w t a (v : byte),
    Py.int0 (address self) = Some a ->
    i2c_readfrom_mem w t a 225 1 = [v] ->
    let m := Z.lor (Z_of_byte v) 1 in
    (m < 100 /\
     exists wb : byte,
       decimal_read_as_hex m = Some (Z_of_byte wb) /\
       enable_interrupt self w t =
         (Ok tt, [ERead a 225 1 [v]; EWrite a 226 [wb]]) /\
       clear_interrupt_flag self w t =
         (Ok tt, [ERead a 225 1 [v]; EWrite a 225 [wb]]) /\
       (Z_of_byte wb = m <-> m <= 9)) \/
    (100 <= m /\
     enable_interrupt self w t = (Raise ValueError, [ERead a 225 1 [v]]) /\
     clear_interrupt_flag self w t = (Raise ValueError, [ERead a 225 1 [v]])).
Proof.
  intros self w t a v Ha Hread m.
  pose proof (interrupt_payload_byte v) as Hp. cbv zeta in Hp. fold m in Hp.
  pose proof (enable_interrupt_cases self w a Ha t) as He.
  pose proof (clear_interrupt_flag_cases self w a Ha t) as Hc.
  cbv zeta in He, Hc. rewrite Hread in He, Hc.
  unfold interrupt_value in He, Hc. rewrite from_bytes_single in He, Hc.
  fold m in He, Hc. fold (interrupt_payload m) in He, Hc.
  assert (Hm : 0 <= m).
  { unfold m. apply Z.lor_nonneg. pose proof (Z_of_byte_range v). lia. }
  destruct (Z.ltb_spec m 100) as [Hlt | Hge].
  - left. split; [exact Hlt|].
    destruct Hp as [wb [Hpay [Hhex Hval]]]. exists wb.
    rewrite Hpay in He, Hc.
    destruct He as [[buf [Hb He]] | [Hb _]]; [| discriminate].
    destruct Hc as [[buf' [Hb' Hc]] | [Hb' _]]; [| discriminate].
    injection Hb as <-. injection Hb' as <-.
    repeat split; try assumption.
    + intros E. apply (decimal_as_hex_differs m Hm). lia.
    + intros E. apply (decimal_as_hex_differs m Hm) in E. lia.
  - right. split; [exact Hge|]. rewrite Hp in He, Hc.
    destruct He as [[buf [Hb _]] | [_ He]]; [discriminate|].
    destruct Hc as [[buf' [Hb' _]] | [_ Hc]]; [discriminate|].
    split; assumption.
Qed.

Lemma interrupt_value_is_written_as_decimal_read_as_hex_witness :
  let self := Mock.tmf8805_instance in
  let w := Mock.device_with_interrupt_status x17 in
  let m := Z.lor (Z_of_byte x17) 1 in
  (m < 100 /\
   exists wb : byte,
     decimal_read_as_hex m = Some (Z_of_byte wb) /\
     enable_interrupt self w [] =
       (Ok tt, [ERead 65 225 1 [x17]; EWrite 65 226 [wb]]) /\
     clear_interrupt_flag self w [] =
       (Ok tt, [ERead 65 225 1 [x17]; EWrite 65 225 [wb]]) /\
     (Z_of_byte wb = m <-> m <= 9)) \/
  (100 <= m /\
   enable_interrupt self w [] = (Raise ValueError, [ERead 65 225 1 [x17]]) /\
   clear_interrupt_flag self w [] = (Raise ValueError, [ERead 65 225 1 [x17]])).
Proof.
  apply (interrupt_value_is_written_as_decimal_read_as_hex
           Mock.tmf8805_instance (Mock.device_with_interrupt_status x17)
           [] 65 x17);
    reflexivity.
Defined.

(** The value 23 is written as 0x23 = 35. *)
Example enable_interrupt_23 :
  enable_interrupt Mock.tmf8805_instance
    (Mock.device_with_interrupt_status x17) [] =
    (Ok tt, [ERead 65 225 1 [x17]; EWrite 65 226 [x23]])
  /\ Z_of_byte x17 = 23 /\ Z_of_byte x23 = 35.
Proof. repeat split. Qed.

(** With 0xFF in the interrupt-status register the decimal string "255"
    is no hex string: [enable_interrupt] raises, and so do the methods
    that call it. *)
Example enable_interrupt_255 :
  let w := Mock.device_with_interrupt_status xff in
  enable_interrupt Mock.tmf8805_instance w [] =
    (Raise ValueError, [ERead 65 225 1 [xff]]) /\
  fst (get_measurement Mock.tmf8805_instance 500 w []) = Raise ValueError /\
  fst (perform_calibration Mock.tmf8805_instance 500 w []) = Raise ValueError.
Proof. repeat split. Qed.

(* ================================================================== *)
(** ** perform_calibration *)
(* ================================================================== *)

Section CalibrationRuns.

Variables (self : TMF8805) (w : World) (a : Z).
Hypothesis address_ok : Py.int0 (address self) = Some a.

(** The loop as a recursion on the history: what one turn does, by the
    clock reading and the register answer it gets. *)
Lemma calibration_wait_zero start t :
  calibration_wait self 0 start w t =
    (let now := utime_time w t in
     if now - start <? 30 then (OutOfFuel, [ETime now])
     else (Ok [], [ETime now])).
Proof.
  cbn [calibration_wait]. unfold bind, time. cbv zeta.
  destruct (utime_time w t - start <? 30); reflexivity.
Qed.

Lemma calibration_wait_succ n start t :
  calibration_wait self (S n) start w t =
    (let now := utime_time w t in
     if now - start <? 30 then
       let d := i2c_readfrom_mem w (t ++ [ETime now; EFeed; ESleep 50]) a 30 1 in
       let polled := t ++ calibration_poll w a now d in
       if Py.from_bytes d (sys_byteorder w) =? 10 then
         let blob :=
           i2c_readfrom_mem w (polled ++ [EFeed; ESleep 10]) a 32 14 in
         (Ok blob,
          calibration_poll w a now d ++ [EFeed; ESleep 10; ERead a 32 14 blob])
       else
         let rest := calibration_wait self n start w polled in
         (fst rest, calibration_poll w a now d ++ snd rest)
     else (Ok [], [ETime now])).
Proof.
  cbv zeta. set (now := utime_time w t).
  destruct (now - start <? 30) eqn:E.
  2:{ cbn [calibration_wait]. unfold bind, time. fold now. now rewrite E. }
  set (d := i2c_readfrom_mem w (t ++ [ETime now; EFeed; ESleep 50]) a 30 1).
  set (value := Py.from_bytes d (sys_byteorder w)).
  assert (Hpoll :
    forall (k : M bytes) r e,
      k w (t ++ calibration_poll w a now d) = (r, e) ->
      (now0 <- time ;;
       if now0 - start <? 30 then
         wdt_feed ;;
         sleep_ms 50 ;;
         value0 <- read_single_byte self REGISTER_REGISTER_CONTENTS ;;
         print ("REGISTER_REGISTER_CONTENTS: " ++ Py.str value0)%string ;;
         marker <- hex_to_dec CONTENT_CALIBRATION ;;
         if value0 =? marker then
           wdt_feed ;;
           sleep_ms 10 ;;
           read_bytes self REGISTER_FACTORY_CALIB_0 CALIBRATION_DATA_LENGTH
         else k
       else ret []) w t =
      (if value =? 10
       then
         let blob :=
           i2c_readfrom_mem w
             ((t ++ calibration_poll w a now d) ++ [EFeed; ESleep 10]) a 32 14
         in (Ok blob,
             calibration_poll w a now d
             ++ [EFeed; ESleep 10; ERead a 32 14 blob])
       else (r, calibration_poll w a now d ++ e))).
  { intros k r e Hk.
    assert (Ht1 : ((t ++ [ETime now]) ++ [EFeed]) ++ [ESleep 50]
                  = t ++ [ETime now; EFeed; ESleep 50])
      by now rewrite <- !app_assoc.
    assert (Ht2 : ((t ++ [ETime now; EFeed; ESleep 50]) ++ [ERead a 30 1 d])
                  ++ [EPrint (contents_message value)]
                  = t ++ calibration_poll w a now d)
      by now rewrite <- !app_assoc.
    destruct (value =? 10) eqn:Ev;
      (erewrite bind_run; [| reflexivity |];
       [| fold now; rewrite E;
          erewrite bind_run; [| reflexivity |];
          [| erewrite bind_run; [| reflexivity |];
             [| erewrite bind_run;
                [| apply (read_single_byte_run self w a address_ok
                            REGISTER_REGISTER_CONTENTS 30);
                   reflexivity |];
                [| cbv zeta; rewrite Ht1; fold d value;
                   erewrite bind_run; [| reflexivity |];
                   [| erewrite bind_run;
                      [| apply (hex_to_dec_run CONTENT_CALIBRATION 10);
                         reflexivity |];
                      [| rewrite Ev, app_nil_r;
                         fold (contents_message value); rewrite Ht2;
                         first
                           [ exact Hk
                           | erewrite bind_run; [| reflexivity |];
                             [| erewrite bind_run; [| reflexivity |];
                                [| apply (read_bytes_run self w a address_ok
                                            REGISTER_FACTORY_CALIB_0 32);
                                   reflexivity ];
                                reflexivity ];
                             reflexivity ] ];
                      reflexivity ];
                   reflexivity ];
                reflexivity ];
             reflexivity ];
          reflexivity ]).
    - cbv zeta. rewrite Ht1. rewrite <- !app_assoc. reflexivity.
    - rewrite Ht1. reflexivity. }
  cbn [calibration_wait].
  erewrite Hpoll; [| apply surjective_pairing].
  reflexivity.
Qed.

Lemma calibration_wait_runs start : forall n t,
  calibration_wait_run w a start n
    (fst (calibration_wait self n start w t))
    (snd (calibration_wait self n start w t)).
Proof.
  induction n as [|n IH]; intros t.
  - rewrite calibration_wait_zero. cbv zeta.
    destruct (utime_time w t - start <? 30) eqn:E; cbn [fst snd].
    + apply wait_out_of_fuel. now apply Z.ltb_lt.
    + apply wait_timeout. now apply Z.ltb_ge.
  - rewrite calibration_wait_succ. cbv zeta.
    destruct (utime_time w t - start <? 30) eqn:E.
    2:{ apply wait_timeout. now apply Z.ltb_ge. }
    apply Z.ltb_lt in E.
    match goal with
    | |- context [?v =? 10] => destruct (Z.eqb_spec v 10) as [Ev | Ev]
    end; cbn [fst snd].
    + apply wait_found; assumption.
    + apply wait_again; [assumption | assumption | apply IH].
Qed.

(** Once the loop returns within [n] turns, more turns change nothing. *)
Lemma calibration_wait_more_turns start : forall n m t blob evs,
  (n <= m)%nat ->
  calibration_wait self n start w t = (Ok blob, evs) ->
  calibration_wait self m start w t = (Ok blob, evs).
Proof.
  induction n as [|n IH]; intros m t blob evs Hnm Hrun.
  - rewrite calibration_wait_zero in Hrun. cbv zeta in Hrun.
    destruct (utime_time w t - start <? 30) eqn:E; [discriminate|].
    destruct m as [|m].
    + rewrite calibration_wait_zero. cbv zeta. now rewrite E.
    + rewrite calibration_wait_succ. cbv zeta. now rewrite E.
  - destruct m as [|m]; [lia|].
    rewrite calibration_wait_succ in Hrun |- *. cbv zeta in Hrun |- *.
    destruct (utime_time w t - start <? 30); [| exact Hrun].
    match goal with
    | |- context [?v =? 10] => destruct (v =? 10)
    end; [exact Hrun|].
    match type of Hrun with
    | context [calibration_wait self n start w ?t'] =>
        destruct (calibration_wait self n start w t') as [out rest] eqn:Hrest
    end.
    cbn [fst snd] in Hrun. injection Hrun as -> <-.
    rewrite (IH m _ blob rest); [reflexivity | lia | exact Hrest].
Qed.

End CalibrationRuns.

(** The loop, flattened: some polls that went on, then an ending. *)
Lemma calibration_wait_shape w a start n out evs :
  calibration_wait_run w a start n out evs ->
  exists turns tail,
    evs = calibration_polls w a turns ++ tail /\
    Forall (goes_on w start) turns /\
    calibration_ending w a start n (List.length turns) out tail.
Proof.
  intros H.
  induction H as [n now Hnow | n now d blob Hnow Hd
                  | n now d out evs Hnow Hd Hrest IH | now Hnow].
  - exists [], [ETime now]. repeat split; [constructor|].
    right. left. exists now. cbn. repeat split; [assumption | lia].
  - exists [], (calibration_poll w a now d
                ++ [EFeed; ESleep 10; ERead a 32 14 blob]).
    repeat split; [constructor|].
    left. exists now, d, blob. cbn [List.length]. repeat split; try assumption.
    lia.
  - destruct IH as [turns [tail [-> [Hall Hend]]]].
    exists ((now, d) :: turns), tail. split; [| split].
    + unfold calibration_polls. cbn [flat_map fst snd].
      now rewrite app_assoc.
    + constructor; [split; assumption | exact Hall].
    + cbn [List.length].
      destruct Hend as [[now' [d' [blob [-> [-> [Ht [Hd' Hlt]]]]]]]
                       | [[now' [-> [-> [Ht Hle]]]]
                         | [now' [-> [-> [Ht Heq]]]]]].
      * left. exists now', d', blob. repeat split; try assumption. lia.
      * right. left. exists now'. repeat split; try assumption. lia.
      * right. right. exists now'. repeat split; try assumption. lia.
  - exists [], [ETime now]. repeat split; [constructor|].
    right. right. exists now. cbn. repeat split; assumption.
Qed.

Section PerformCalibration.

Variables (self : TMF8805) (w : World) (a : Z).
Hypothesis address_ok : Py.int0 (address self) = Some a.

Lemma perform_calibration_runs fuel t :
  calibration_run w a fuel
    (fst (perform_calibration self fuel w t))
    (snd (perform_calibration self fuel w t)).
Proof.
  unfold perform_calibration.
  destruct (enable_interrupt_cases self w a address_ok (t ++ [EFeed]))
    as [[buf [Hbuf Hint]] | [Hbuf Hint]].
  - set (dint := i2c_readfrom_mem w (t ++ [EFeed]) a 225 1) in *.
    set (t1 := ((t ++ [EFeed]) ++ [ERead a 225 1 dint; EWrite a 226 buf])
               ++ [EWrite a 16 [x0a]]).
    set (start := utime_time w t1).
    destruct (calibration_wait self fuel start w (t1 ++ [ETime start]))
      as [out evs] eqn:Hwait.
    assert (Hrun :
      perform_calibration self fuel w t =
        (out, [EFeed; ERead a 225 1 dint; EWrite a 226 buf;
               EWrite a 16 [x0a]; ETime start] ++ evs)).
    { unfold perform_calibration.
      erewrite bind_run; [| reflexivity |].
      2:{ erewrite bind_run; [| exact Hint |].
          2:{ erewrite bind_run;
                [| apply (write_bytes_run self w a address_ok _ _ 16 [x0a]);
                   reflexivity |].
              2:{ erewrite bind_run; [| reflexivity |].
                  2:{ fold t1 start. exact Hwait. }
                  reflexivity. }
              reflexivity. }
          reflexivity. }
      reflexivity. }
    unfold perform_calibration in Hrun. rewrite Hrun. cbn [fst snd].
    apply calibration_waits; [exact Hbuf|].
    pose proof (calibration_wait_runs self w a address_ok start fuel
                  (t1 ++ [ETime start])) as Hw.
    now rewrite Hwait in Hw.
  - set (dint := i2c_readfrom_mem w (t ++ [EFeed]) a 225 1) in *.
    assert (Hrun :
      perform_calibration self fuel w t =
        (Raise ValueError, [EFeed; ERead a 225 1 dint])).
    { unfold perform_calibration.
      erewrite bind_run; [| reflexivity |].
      2:{ apply bind_raise. exact Hint. }
      reflexivity. }
    unfold perform_calibration in Hrun. rewrite Hrun. cbn [fst snd].
    apply calibration_interrupt_raises. exact Hbuf.
Qed.

Lemma perform_calibration_more_turns fuel fuel' t blob evs :
  (fuel <= fuel')%nat ->
  perform_calibration self fuel w t = (Ok blob, evs) ->
  perform_calibration self fuel' w t = (Ok blob, evs).
Proof.
  intros Hle H. unfold perform_calibration in *.
  apply bind_inv_ok in H. destruct H as [x1 [e1 [r1 [H1 [H ->]]]]].
  apply bind_inv_ok in H. destruct H as [x2 [e2 [r2 [H2 [H ->]]]]].
  apply bind_inv_ok in H. destruct H as [x3 [e3 [r3 [H3 [H ->]]]]].
  apply bind_inv_ok in H. destruct H as [start [e4 [r4 [H4 [H ->]]]]].
  erewrite bind_run; [reflexivity | exact H1 |].
  erewrite bind_run; [reflexivity | exact H2 |].
  erewrite bind_run; [reflexivity | exact H3 |].
  erewrite bind_run; [reflexivity | exact H4 |].
  apply (calibration_wait_more_turns self w a address_ok start fuel);
    assumption.
Qed.

End PerformCalibration.

(** C7. [perform_calibration] feeds the watchdog and enables the
    interrupt; once that has written its byte (see C10 for when it raises
    instead), it writes the factory-calibration command 0x0A to the
    command register and reads the clock.  It then polls: each turn reads
    the clock, and while less than 30 s have passed since the start, feeds
    the watchdog, sleeps 50 ms and reads the register-contents register
    0x1E.  When that holds the marker 0x0A it sleeps 10 ms, reads 14 bytes
    from the factory-calibration base register 0x20 and returns the
    answer; when a clock reading shows 30 s or more, it returns the empty
    blob.  The loop never raises, and goes on for as long as neither
    happens: the model stops it for lack of turns only after [fuel] polls
    that went on, and a result returned within [fuel] turns is the result
    for every larger allowance. *)
Theorem perform_calibration_polls :
  forall self fuel w t a,
    Py.int0 (address self) = Some a ->
    let out := fst (perform_calibration self fuel w t) in
    let evs := snd (perform_calibration self fuel w t) in
    ((exists dint,
         interrupt_payload (interrupt_value w dint) = None /\
         out = Raise ValueError /\
         evs = [EFeed; ERead a 225 1 dint]) \/
     (exists dint buf start turns tail,
         interrupt_payload (interrupt_value w dint) = Some buf /\
         evs = [EFeed; ERead a 225 1 dint; EWrite a 226 buf;
                EWrite a 16 [x0a]; ETime start]
               ++ calibration_polls w a turns ++ tail /\
         Forall (goes_on w start) turns /\
         calibration_ending w a start fuel (List.length turns) out tail)) /\
    (forall blob fuel', out = Ok blob -> (fuel <= fuel')%nat ->
       perform_calibration self fuel' w t = (Ok blob, evs)).
Proof.
  intros self fuel w t a Ha out evs.
  split.
  - pose proof (perform_calibration_runs self w a Ha fuel t) as Hrun.
    fold out evs in Hrun.
    destruct Hrun as [dint Hbuf | dint buf start out evs Hbuf Hwait].
    + left. exists dint. auto.
    + right. apply calibration_wait_shape in Hwait.
      destruct Hwait as [turns [tail [-> [Hall Hend]]]].
      exists dint, buf, start, turns, tail. auto.
  - intros blob fuel' Hblob Hle.
    apply (perform_calibration_more_turns self w a Ha fuel fuel'); [exact Hle|].
    rewrite (surjective_pairing (perform_calibration self fuel w t)).
    fold out evs. now rewrite Hblob.
Qed.

Lemma perform_calibration_polls_witness :
  let self := Mock.tmf8805_instance in
  let w := Mock.world Mock.PERFORM_CALIBRATION in
  let out := fst (perform_calibration self 5 w []) in
  let evs := snd (perform_calibration self 5 w []) in
  ((exists dint,
       interrupt_payload (interrupt_value w dint) = None /\
       out = Raise ValueError /\
       evs = [EFeed; ERead 65 225 1 dint]) \/
   (exists dint buf start turns tail,
       interrupt_payload (interrupt_value w dint) = Some buf /\
       evs = [EFeed; ERead 65 225 1 dint; EWrite 65 226 buf;
              EWrite 65 16 [x0a]; ETime start]
             ++ calibration_polls w 65 turns ++ tail /\
       Forall (goes_on w start) turns /\
       calibration_ending w 65 start 5 (List.length turns) out tail)) /\
  (forall blob fuel', out = Ok blob -> (5 <= fuel')%nat ->
     perform_calibration self fuel' w [] = (Ok blob, evs)).
Proof.
  apply (perform_calibration_polls Mock.tmf8805_instance 5
           (Mock.world Mock.PERFORM_CALIBRATION) [] 65).
  reflexivity.
Defined.

(** The fixture of the test suite: the marker is there at the first poll,
    and the 14 bytes read back are returned. *)
Example perform_calibration_found :
  fst (perform_calibration Mock.tmf8805_instance 5
         (Mock.world Mock.PERFORM_CALIBRATION) [])
    = Ok (repeat "A"%byte 14).
Proof. reflexivity. Qed.

(** A device that never shows the marker, with a clock that advances by
    the sleeps: after 600 polls of 50 ms the empty blob is returned. *)
Example perform_calibration_timeout :
  let r := perform_calibration Mock.tmf8805_instance 600
             (Mock.world Mock.CORRECT_MEASUREMENT) [] in
  fst r = Ok [] /\ List.length (reads_of 30 (snd r)) = 600%nat.
Proof. vm_compute. split; reflexivity. Qed.

(* ================================================================== *)
(** * Further properties of the driver *)
(* ================================================================== *)

(** ** Literals, single reads and bit tests *)

Lemma digit_value_range c d : Py.digit_value c = Some d -> 0 <= d < 36.
Proof.
  unfold Py.digit_value. cbv zeta.
  destruct ((48 <=? Z.of_N (N_of_ascii c)) && (Z.of_N (N_of_ascii c) <=? 57))
    eqn:E1.
  { intros H. injection H as <-. apply andb_true_iff in E1. lia. }
  destruct ((97 <=? Z.of_N (N_of_ascii c)) && (Z.of_N (N_of_ascii c) <=? 122))
    eqn:E2.
  { intros H. injection H as <-. apply andb_true_iff in E2. lia. }
  destruct ((65 <=? Z.of_N (N_of_ascii c)) && (Z.of_N (N_of_ascii c) <=? 90))
    eqn:E3; [| discriminate].
  intros H. injection H as <-. apply andb_true_iff in E3. lia.
Qed.

Lemma digits_acc_nonneg base s : forall acc v,
  0 <= base -> 0 <= acc -> Py.digits_acc base s acc = Some v -> 0 <= v.
Proof.
  induction s as [|c s IH]; intros acc v Hb Hacc; cbn [Py.digits_acc].
  - intros H. injection H as <-. exact Hacc.
  - destruct (Py.digit_value c) as [d|] eqn:Hd; [| discriminate].
    apply digit_value_range in Hd.
    destruct (d <? base); [| discriminate].
    apply IH; [exact Hb | nia].
Qed.

Lemma digits_nonneg base s v :
  0 <= base -> Py.digits base s = Some v -> 0 <= v.
Proof.
  intros Hb. destruct s as [|c s]; [discriminate|].
  apply digits_acc_nonneg; [exact Hb | lia].
Qed.

(** The fragment of [int(s, 0)] that is modelled has no sign. *)
Lemma int0_nonneg s v : Py.int0 s = Some v -> 0 <= v.
Proof.
  unfold Py.int0.
  repeat match goal with
         | |- context [match ?x with _ => _ end] => destruct x
         end;
    try discriminate;
    try (apply digits_nonneg; lia);
    intros H; injection H as <-; lia.
Qed.

(** X1. [is_connected] scans the bus and touches no register; it returns
    [True] exactly when the configured address is among the scanned
    addresses. *)
Theorem is_connected_iff_scanned :
  forall self w t a,
    Py.int0 (address self) = Some a ->
    exists b,
      is_connected self w t = (Ok b, [EScan (i2c_scan w t)]) /\
      (b = true <-> In a (i2c_scan w t)).
Proof.
  intros self w t a Ha.
  exists (existsb (Z.eqb a) (i2c_scan w t)).
  split; [apply (is_connected_run self w a Ha) | apply existsb_eqb_In].
Qed.

Lemma is_connected_iff_scanned_witness :
  let w := Mock.world Mock.NOT_CONNECTED in
  exists b,
    is_connected Mock.tmf8805_instance w [] = (Ok b, [EScan (i2c_scan w [])]) /\
    (b = true <-> In 65 (i2c_scan w [])).
Proof.
  apply (is_connected_iff_scanned Mock.tmf8805_instance
           (Mock.world Mock.NOT_CONNECTED) [] 65).
  reflexivity.
Defined.

(** X2. [is_bit_set(register, position)] reads the register once and
    returns whether bit [position] of the value read is set: the test
    [bool(value & (1 << position))] is the bit test, for every register
    and position literal and every answer of the bus. *)
Theorem is_bit_set_tests_the_bit :
  forall self w t a register position r p,
    Py.int0 (address self) = Some a ->
    Py.int0 register = Some r ->
    Py.int0 position = Some p ->
    let data := i2c_readfrom_mem w t a r 1 in
    is_bit_set self register position w t =
      (Ok (Z.testbit (Py.from_bytes data (sys_byteorder w)) p),
       [ERead a r 1 data]).
Proof.
  intros self w t a register position r p Ha Hr Hp.
  apply (is_bit_set_run self w a Ha register position r p t Hr Hp).
  now apply (int0_nonneg position).
Qed.

Lemma is_bit_set_tests_the_bit_witness :
  let w := Mock.device Mock.CORRECT_MEASUREMENT in
  let data := i2c_readfrom_mem w [] 65 224 1 in
  is_bit_set Mock.tmf8805_instance REGISTER_ENABLE_REG CPU_READY w [] =
    (Ok (Z.testbit (Py.from_bytes data (sys_byteorder w)) 6),
     [ERead 65 224 1 data]).
Proof.
  apply (is_bit_set_tests_the_bit Mock.tmf8805_instance
           (Mock.device Mock.CORRECT_MEASUREMENT) [] 65
           REGISTER_ENABLE_REG CPU_READY 224 6);
    reflexivity.
Defined.

Lemma from_bytes_little_range bs :
  0 <= Py.from_bytes_little bs < 256 ^ Z.of_nat (List.length bs).
Proof.
  unfold Py.from_bytes_little.
  induction bs as [|b bs IH]; cbn [fold_right List.length]; [simpl; lia|].
  rewrite Nat2Z.inj_succ, Z.pow_succ_r by lia.
  pose proof (Z_of_byte_range b). lia.
Qed.

Lemma from_bytes_big_little bs :
  Py.from_bytes_big bs = Py.from_bytes_little (rev bs).
Proof.
  unfold Py.from_bytes_big, Py.from_bytes_little.
  rewrite <- fold_left_rev_right.
  induction (rev bs) as [|b l IH]; cbn [fold_right]; [reflexivity|].
  rewrite IH. lia.
Qed.

(** X3. [read_single_byte] asks the bus for one byte of the register and
    returns the answer as an unsigned number in the platform's byte order:
    for an answer of [n] bytes the value lies in [0, 256^n), so below 256
    for the one byte asked for, where the byte order does not matter; a
    big-endian platform reads an answer as a little-endian one reads its
    mirror image. *)
Theorem read_single_byte_value :
  forall self w t a register r,
    Py.int0 (address self) = Some a ->
    Py.int0 register = Some r ->
    let data := i2c_readfrom_mem w t a r 1 in
    exists v,
      read_single_byte self register w t = (Ok v, [ERead a r 1 data]) /\
      0 <= v < 256 ^ Z.of_nat (List.length data) /\
      (forall b, data = [b] -> v = Z_of_byte b /\ 0 <= v < 256) /\
      Py.from_bytes data Py.big = Py.from_bytes (rev data) Py.little.
Proof.
  intros self w t a register r Ha Hr data.
  exists (Py.from_bytes data (sys_byteorder w)).
  split; [apply (read_single_byte_run self w a Ha register r t Hr)|].
  split; [| split].
  - destruct (sys_byteorder w); cbn [Py.from_bytes].
    + apply from_bytes_little_range.
    + rewrite from_bytes_big_little, <- length_rev.
      apply from_bytes_little_range.
  - intros b ->. rewrite from_bytes_single.
    split; [reflexivity | apply Z_of_byte_range].
  - cbn [Py.from_bytes]. apply from_bytes_big_little.
Qed.

Lemma read_single_byte_value_witness :
  let w := Mock.world Mock.UNKNOWN_STATUS in
  let data := i2c_readfrom_mem w [] 65 29 1 in
  exists v,
    read_single_byte Mock.tmf8805_instance REGISTER_STATUS w []
      = (Ok v, [ERead 65 29 1 data]) /\
    0 <= v < 256 ^ Z.of_nat (List.length data) /\
    (forall b, data = [b] -> v = Z_of_byte b /\ 0 <= v < 256) /\
    Py.from_bytes data Py.big = Py.from_bytes (rev data) Py.little.
Proof.
  apply (read_single_byte_value Mock.tmf8805_instance
           (Mock.world Mock.UNKNOWN_STATUS) [] 65 REGISTER_STATUS 29);
    reflexivity.
Defined.

(** ** write_bytes *)

Lemma byte_of_Z_some z :
  0 <= z < 256 -> exists b, Py.byte_of_Z z = Some b /\ Z_of_byte b = z.
Proof.
  intros Hz. unfold Py.byte_of_Z.
  destruct (Byte.of_N (Z.to_N z)) as [b|] eqn:E.
  - exists b. split; [reflexivity|].
    apply Byte.to_of_N in E. unfold Z_of_byte. rewrite E. lia.
  - apply Byte.of_N_None_iff in E. lia.
Qed.

(** A string with an odd number of characters is no hex string. *)
Lemma fromhex_odd s :
  Nat.odd (String.length s) = true -> Py.fromhex s = None.
Proof.
  enough (H : (Nat.odd (String.length s) = true -> Py.fromhex s = None) /\
              (forall c, Nat.odd (String.length (String c s)) = true ->
                         Py.fromhex (String c s) = None)) by apply H.
  induction s as [|c' s [IH1 IH2]].
  - split; [discriminate | reflexivity].
  - split; [apply IH2|].
    intros c Hodd. cbn [String.length] in Hodd.
    rewrite Nat.odd_succ_succ in Hodd. specialize (IH1 Hodd).
    cbn [Py.fromhex]. rewrite IH1.
    destruct (Py.digit_value c), (Py.digit_value c'); try reflexivity.
    destruct ((_ <? 16) && (_ <? 16)); [| reflexivity].
    now destruct (Py.byte_of_Z _).
Qed.

(** X4. Given a literal of the form the module's constants have, [0x]
    followed by one or two hexadecimal digits, [write_bytes] writes exactly
    one byte to the register, and that byte is the value [hex_to_dec] gives
    the literal: a single digit is padded, not rejected. *)
Theorem write_bytes_writes_the_literal :
  forall self w t a register r (c1 c2 : ascii) h l,
    Py.int0 (address self) = Some a ->
    Py.int0 register = Some r ->
    Py.digit_value c1 = Some h -> h < 16 ->
    Py.digit_value c2 = Some l -> l < 16 ->
    let two := String "0" (String "x" (String c1 (String c2 ""))) in
    let one := String "0" (String "x" (String c2 "")) in
    exists b2 b1,
      write_bytes self register two w t = (Ok tt, [EWrite a r [b2]]) /\
      Py.int0 two = Some (Z_of_byte b2) /\
      write_bytes self register one w t = (Ok tt, [EWrite a r [b1]]) /\
      Py.int0 one = Some (Z_of_byte b1).
Proof.
  intros self w t a register r c1 c2 h l Ha Hr H1 Hh H2 Hl two one.
  pose proof (digit_value_range c1 h H1) as Rh.
  pose proof (digit_value_range c2 l H2) as Rl.
  destruct (byte_of_Z_some (16 * h + l)) as [b2 [Hb2 Hv2]]; [lia|].
  destruct (byte_of_Z_some (16 * 0 + l)) as [b1 [Hb1 Hv1]]; [lia|].
  assert (Hlt : forall x, x < 16 -> (x <? 16) = true)
    by (intros x Hx; now apply Z.ltb_lt).
  exists b2, b1. repeat split.
  - apply (write_bytes_run self w a Ha register two r [b2] t Hr).
    unfold hex_digits_of, two. cbn [Py.startswith prefix Py.drop].
    destruct (ascii_dec "0" "0") as [_|N]; [| now elim N].
    destruct (ascii_dec "x" "x") as [_|N]; [| now elim N].
    cbn [Py.len String.length Z.of_nat Pos.of_succ_nat Pos.succ Z.eqb Pos.eqb
         Py.fromhex].
    now rewrite H1, H2, (Hlt h Hh), (Hlt l Hl), Hb2.
  - unfold two. cbn [Py.int0 Py.digits Py.digits_acc].
    rewrite H1, (Hlt h Hh). cbn [Py.digits_acc].
    rewrite H2, (Hlt l Hl). f_equal. lia.
  - apply (write_bytes_run self w a Ha register one r [b1] t Hr).
    unfold hex_digits_of, one. cbn [Py.startswith prefix Py.drop].
    destruct (ascii_dec "0" "0") as [_|N]; [| now elim N].
    destruct (ascii_dec "x" "x") as [_|N]; [| now elim N].
    cbn [Py.len String.length Z.of_nat Pos.of_succ_nat Z.eqb Pos.eqb
         append Py.fromhex].
    change (Py.digit_value "0") with (Some 0).
    now rewrite H2, (Hlt l Hl), Hb1.
  - unfold one. cbn [Py.int0 Py.digits Py.digits_acc].
    rewrite H2, (Hlt l Hl). f_equal. lia.
Qed.

Lemma write_bytes_writes_the_literal_witness :
  let w := Mock.device Mock.CORRECT_MEASUREMENT in
  exists b2 b1,
    write_bytes Mock.tmf8805_instance REGISTER_COMMAND "0x0b" w []
      = (Ok tt, [EWrite 65 16 [b2]]) /\
    Py.int0 "0x0b" = Some (Z_of_byte b2) /\
    write_bytes Mock.tmf8805_instance REGISTER_COMMAND "0xb" w []
      = (Ok tt, [EWrite 65 16 [b1]]) /\
    Py.int0 "0xb" = Some (Z_of_byte b1).
Proof.
  apply (write_bytes_writes_the_literal Mock.tmf8805_instance
           (Mock.device Mock.CORRECT_MEASUREMENT) [] 65 REGISTER_COMMAND 16
           "0"%char "b"%char 0 11);
    (reflexivity || lia).
Defined.

(** X5. [write_bytes] raises [ValueError], and writes nothing, whenever the
    value, which holds no blank, once its [0x] prefix is dropped and a
    single character is padded, has an odd number of characters: that is,
    for every value of 3, 5, 7, ... characters after the prefix. *)
Theorem write_bytes_rejects_odd_lengths :
  forall self w t a register r value,
    Py.int0 (address self) = Some a ->
    Py.int0 register = Some r ->
    blank_free value = true ->
    Nat.odd (String.length (hex_digits_of value)) = true ->
    write_bytes self register value w t = (Raise ValueError, []).
Proof.
  intros self w t a register r value Ha Hr _ Hodd.
  apply (write_bytes_raise self w a Ha register value r t Hr).
  now apply fromhex_odd.
Qed.

Lemma write_bytes_rejects_odd_lengths_witness :
  write_bytes Mock.tmf8805_instance REGISTER_INT_ENAB "255"
    (Mock.device Mock.CORRECT_MEASUREMENT) [] = (Raise ValueError, []).
Proof.
  apply (write_bytes_rejects_odd_lengths Mock.tmf8805_instance
           (Mock.device Mock.CORRECT_MEASUREMENT) [] 65 REGISTER_INT_ENAB 226
           "255");
    reflexivity.
Defined.

(** ** initialize, and which methods can raise *)

Lemma writes_of_nil : writes_of [] = [].
Proof. reflexivity. Qed.

Lemma writes_of_cons e l :
  writes_of (e :: l) =
    match e with
    | EWrite _ r buf => [(r, buf)]
    | _ => []
    end ++ writes_of l.
Proof. reflexivity. Qed.

Lemma writes_of_cpu_ready_iter w a ds :
  writes_of (flat_map (cpu_ready_iter w a) ds) = [].
Proof.
  induction ds as [|d ds IH]; [reflexivity|].
  cbn [flat_map]. rewrite writes_of_app, IH. unfold cpu_ready_iter.
  destruct (cpu_ready_seen w d); reflexivity.
Qed.

Lemma writes_of_application_iter w a ds :
  writes_of (flat_map (application_iter w a) ds) = [].
Proof.
  induction ds as [|d ds IH]; [reflexivity|].
  cbn [flat_map]. rewrite writes_of_app, IH. unfold application_iter.
  destruct (application_seen w d); reflexivity.
Qed.

Lemma writes_of_result_iter w a ds :
  writes_of (flat_map (result_iter w a) ds) = [].
Proof.
  induction ds as [|d ds IH]; [reflexivity|].
  cbn [flat_map]. rewrite writes_of_app, IH. unfold result_iter.
  destruct (result_seen w d); reflexivity.
Qed.

Ltac writes_simpl :=
  unfold measurement_prelude;
  repeat (rewrite writes_of_app || rewrite writes_of_cons
          || rewrite writes_of_nil || rewrite writes_of_application_iter
          || rewrite writes_of_result_iter || rewrite writes_of_cpu_ready_iter);
  cbn [app]; rewrite ?app_nil_r.

Lemma polled_true_iff limit seen b :
  polled limit seen b -> (b = true <-> In true seen).
Proof.
  intros [k [-> Hk]]. destruct b.
  - split; [| reflexivity]. intros _. apply in_or_app. right. now left.
  - split; [discriminate|]. rewrite app_nil_r. intros Hin.
    apply repeat_spec in Hin. discriminate.
Qed.

(** X6. [initialize] returns [True] exactly when the configured address is
    among the scanned ones and one of the at most 200 reads of the enable
    register shows the CPU-ready bit; it writes the reset byte to the
    enable register once when the device is there and never otherwise,
    and writes to no other register. *)
Theorem initialize_succeeds_iff :
  forall self fuel w t a,
    Py.int0 (address self) = Some a ->
    (200 <= fuel)%nat ->
    let evs := snd (initialize self fuel w t) in
    exists b,
      fst (initialize self fuel w t) = Ok b /\
      (b = true <->
       In a (i2c_scan w t) /\
       In true (map (cpu_ready_seen w) (reads_of 224 evs))) /\
      (In a (i2c_scan w t) -> writes_of evs = [(224, ["1"%byte])]) /\
      (~ In a (i2c_scan w t) -> writes_of evs = []).
Proof.
  intros self fuel w t a Ha Hfuel evs. subst evs.
  destruct (existsb (Z.eqb a) (i2c_scan w t)) eqn:Hscan.
  - assert (Hin : In a (i2c_scan w t)) by now apply existsb_eqb_In.
    destruct (initialize_present self w a Ha fuel t Hfuel Hscan)
      as [ds [b [Hrun Hp]]].
    rewrite Hrun. cbn [fst snd]. exists b.
    replace (reads_of 224 _) with ds by (destruct b; now reads_simpl).
    split; [reflexivity | split; [| split]].
    + rewrite (polled_true_iff _ _ _ Hp). tauto.
    + intros _. destruct b; now writes_simpl.
    + intros Hn. contradiction.
  - assert (Hout : ~ In a (i2c_scan w t)).
    { intros Hin. apply existsb_eqb_In in Hin. congruence. }
    rewrite (initialize_absent self w a Ha fuel t Hscan). cbn [fst snd].
    exists false. split; [reflexivity | split; [| split]].
    + split; [discriminate | tauto].
    + intros Hin. contradiction.
    + reflexivity.
Qed.

Lemma initialize_succeeds_iff_witness :
  let self := Mock.tmf8805_instance in
  let w := Mock.device Mock.CORRECT_MEASUREMENT in
  let evs := snd (initialize self 200 w []) in
  exists b,
    fst (initialize self 200 w []) = Ok b /\
    (b = true <->
     In 65 (i2c_scan w []) /\
     In true (map (cpu_ready_seen w) (reads_of 224 evs))) /\
    (In 65 (i2c_scan w []) -> writes_of evs = [(224, ["1"%byte])]) /\
    (~ In 65 (i2c_scan w []) -> writes_of evs = []).
Proof.
  apply (initialize_succeeds_iff Mock.tmf8805_instance 200
           (Mock.device Mock.CORRECT_MEASUREMENT) [] 65);
    [reflexivity | lia].
Defined.



(** ** Calibration read back and written *)

(** X8. Reading the calibration and handing it to [set_calibration] does
    not raise, reads the 14 bytes at the factory-calibration base register
    once, and writes back, between the command byte and the algorithm
    state, exactly the bytes that were read. *)
Theorem calibration_round_trip :
  forall self w t a,
    Py.int0 (address self) = Some a ->
    let blob := i2c_readfrom_mem w t a 32 14 in
    (calibration <- get_current_calibration self ;;
     set_calibration self calibration) w t =
      (Ok tt, [ERead a 32 14 blob; EWrite a 16 [x0b]; EWrite a 32 blob;
               EWrite a 46 algo_state_bytes]).
Proof.
  intros self w t a Ha blob.
  erewrite bind_run;
    [| apply (read_bytes_run self w a Ha REGISTER_FACTORY_CALIB_0 32);
       reflexivity
     | apply (set_calibration_run self w a _ _ Ha)].
  reflexivity.
Qed.

Lemma calibration_round_trip_witness :
  let self := Mock.tmf8805_instance in
  let w := Mock.world Mock.PERFORM_CALIBRATION in
  let blob := i2c_readfrom_mem w [] 65 32 14 in
  (calibration <- get_current_calibration self ;;
   set_calibration self calibration) w [] =
    (Ok tt, [ERead 65 32 14 blob; EWrite 65 16 [x0b]; EWrite 65 32 blob;
             EWrite 65 46 algo_state_bytes]).
Proof.
  apply (calibration_round_trip Mock.tmf8805_instance
           (Mock.world Mock.PERFORM_CALIBRATION) [] 65).
  reflexivity.
Defined.

(** ** What the polling loops do to the bus, the clock and the watchdog *)

Lemma slept_ms_app e1 e2 : slept_ms (e1 ++ e2) = slept_ms e1 + slept_ms e2.
Proof.
  unfold slept_ms. induction e1 as [|e e1 IH]; cbn [app fold_right]; [lia|].
  rewrite IH. destruct e; lia.
Qed.

Lemma filter_negb_repeat k : filter negb (repeat false k) = repeat false k.
Proof. induction k as [|k IH]; cbn; [reflexivity | now rewrite IH]. Qed.

Lemma polled_misses limit seen b :
  polled limit seen b ->
  0 <= misses seen <= Z.of_nat limit /\
  (b = false -> misses seen = Z.of_nat limit).
Proof.
  intros [k [-> Hk]]. unfold misses.
  assert (Hf : filter negb (repeat false k ++ (if b then [true] else []))
               = repeat false k).
  { rewrite filter_app.
    replace (filter negb (if b then [true] else [])) with (@nil bool)
      by now destruct b.
    rewrite app_nil_r. apply filter_negb_repeat. }
  rewrite Hf, repeat_length.
  destruct b; (split; [lia | intros; lia || discriminate]).
Qed.

Lemma slept_ms_iters (iter : bytes -> trace) (seen : bytes -> bool) delay ds :
  (forall d, slept_ms (iter d) = if seen d then 0 else delay) ->
  slept_ms (flat_map iter ds) = delay * misses (map seen ds).
Proof.
  intros Hiter. unfold misses.
  induction ds as [|d ds IH]; cbn [flat_map map filter]; [cbn; lia|].
  rewrite slept_ms_app, IH, Hiter.
  destruct (seen d); cbn [negb List.length]; lia.
Qed.

(** X9. The three polling loops only read: they write nothing to the bus
    and read no register but their own (enable 0xE0, application id 0x00,
    register contents 0x1E).  Each sleeps once per poll that did not show
    its condition, 100 ms, 100 ms and 10 ms at a time, so at most 20 s,
    50 s and 5 s in all, and exactly that long when it returns [False]. *)
Theorem polling_loops_read_and_sleep :
  forall self w a fuel t,
    Py.int0 (address self) = Some a ->
    (500 <= fuel)%nat ->
    let cpu := is_cpu_ready self fuel w t in
    let app := is_application_ready self fuel w t in
    let dat := is_data_available self fuel w t in
    (writes_of (snd cpu) = [] /\
     (forall r, r <> 224 -> reads_of r (snd cpu) = []) /\
     slept_ms (snd cpu)
       = 100 * misses (map (cpu_ready_seen w) (reads_of 224 (snd cpu))) /\
     0 <= slept_ms (snd cpu) <= 20000 /\
     (fst cpu = Ok false -> slept_ms (snd cpu) = 20000)) /\
    (writes_of (snd app) = [] /\
     (forall r, r <> 0 -> reads_of r (snd app) = []) /\
     slept_ms (snd app)
       = 100 * misses (map (application_seen w) (reads_of 0 (snd app))) /\
     0 <= slept_ms (snd app) <= 50000 /\
     (fst app = Ok false -> slept_ms (snd app) = 50000)) /\
    (writes_of (snd dat) = [] /\
     (forall r, r <> 30 -> reads_of r (snd dat) = []) /\
     slept_ms (snd dat)
       = 10 * misses (map (result_seen w) (reads_of 30 (snd dat))) /\
     0 <= slept_ms (snd dat) <= 5000 /\
     (fst dat = Ok false -> slept_ms (snd dat) = 5000)).
Proof.
  intros self w a fuel t Ha Hfuel cpu app dat.
  split; [| split].
  - destruct (is_cpu_ready_run self w a Ha fuel t) as [ds [b [Hrun Hp]]];
      [lia|].
    subst cpu. rewrite Hrun. cbn [fst snd].
    assert (Hs : slept_ms (EFeed :: flat_map (cpu_ready_iter w a) ds)
                 = 100 * misses (map (cpu_ready_seen w) ds)).
    { change (slept_ms (EFeed :: ?l)) with (slept_ms l).
      apply slept_ms_iters. intros d. unfold cpu_ready_iter.
      now destruct (cpu_ready_seen w d). }
    pose proof (polled_misses _ _ _ Hp) as [Hm Hf].
    repeat split.
    + now writes_simpl.
    + intros r Hr. change (reads_of r (EFeed :: ?l)) with (reads_of r l).
      rewrite reads_of_cpu_ready_iter.
      destruct (Z.eqb_spec 224 r); [congruence | reflexivity].
    + rewrite Hs. now reads_simpl.
    + lia.
    + lia.
    + intros Hb. injection Hb as ->. rewrite Hs, Hf by reflexivity. lia.
  - destruct (is_application_ready_run self w a Ha fuel t)
      as [ds [b [Hrun Hp]]]; [lia|].
    subst app. rewrite Hrun. cbn [fst snd].
    assert (Hs : slept_ms (flat_map (application_iter w a) ds)
                 = 100 * misses (map (application_seen w) ds)).
    { apply slept_ms_iters. intros d. unfold application_iter.
      now destruct (application_seen w d). }
    pose proof (polled_misses _ _ _ Hp) as [Hm Hf].
    repeat split.
    + now writes_simpl.
    + intros r Hr. rewrite reads_of_application_iter.
      destruct (Z.eqb_spec 0 r); [congruence | reflexivity].
    + rewrite Hs. now reads_simpl.
    + lia.
    + lia.
    + intros Hb. injection Hb as ->. rewrite Hs, Hf by reflexivity. lia.
  - destruct (is_data_available_run self w a Ha fuel t)
      as [ds [b [Hrun Hp]]]; [lia|].
    subst dat. rewrite Hrun. cbn [fst snd].
    assert (Hs : slept_ms (flat_map (result_iter w a) ds)
                 = 10 * misses (map (result_seen w) ds)).
    { apply slept_ms_iters. intros d. unfold result_iter.
      now destruct (result_seen w d). }
    pose proof (polled_misses _ _ _ Hp) as [Hm Hf].
    repeat split.
    + now writes_simpl.
    + intros r Hr. rewrite reads_of_result_iter.
      destruct (Z.eqb_spec 30 r); [congruence | reflexivity].
    + rewrite Hs. now reads_simpl.
    + lia.
    + lia.
    + intros Hb. injection Hb as ->. rewrite Hs, Hf by reflexivity. lia.
Qed.

Lemma polling_loops_read_and_sleep_witness :
  let self := Mock.tmf8805_instance in
  let w := Mock.device Mock.CPU_READY_TIMEOUT in
  let cpu := is_cpu_ready self 500 w [] in
  let app := is_application_ready self 500 w [] in
  let dat := is_data_available self 500 w [] in
  (writes_of (snd cpu) = [] /\
   (forall r, r <> 224 -> reads_of r (snd cpu) = []) /\
   slept_ms (snd cpu)
     = 100 * misses (map (cpu_ready_seen w) (reads_of 224 (snd cpu))) /\
   0 <= slept_ms (snd cpu) <= 20000 /\
   (fst cpu = Ok false -> slept_ms (snd cpu) = 20000)) /\
  (writes_of (snd app) = [] /\
   (forall r, r <> 0 -> reads_of r (snd app) = []) /\
   slept_ms (snd app)
     = 100 * misses (map (application_seen w) (reads_of 0 (snd app))) /\
   0 <= slept_ms (snd app) <= 50000 /\
   (fst app = Ok false -> slept_ms (snd app) = 50000)) /\
  (writes_of (snd dat) = [] /\
   (forall r, r <> 30 -> reads_of r (snd dat) = []) /\
   slept_ms (snd dat)
     = 10 * misses (map (result_seen w) (reads_of 30 (snd dat))) /\
   0 <= slept_ms (snd dat) <= 5000 /\
   (fst dat = Ok false -> slept_ms (snd dat) = 5000)).
Proof.
  apply (polling_loops_read_and_sleep Mock.tmf8805_instance
           (Mock.device Mock.CPU_READY_TIMEOUT) 65 500 []).
  - reflexivity.
  - lia.
Defined.

Lemma sleeps_fed_app limit : forall e1 e2 unfed,
  sleeps_fed limit unfed (e1 ++ e2) =
    match sleeps_fed limit unfed e1 with
    | Some rest => sleeps_fed limit rest e2
    | None => None
    end.
Proof.
  induction e1 as [|e e1 IH]; intros e2 unfed; [reflexivity|].
  destruct e; cbn [app sleeps_fed]; try apply IH.
  destruct (unfed + ms <=? limit); [apply IH | reflexivity].
Qed.

(** A loop whose every turn leaves the watchdog fed leaves it fed. *)
Lemma sleeps_fed_iters limit (iter : bytes -> trace) ds :
  (forall d unfed, sleeps_fed limit unfed (iter d) = Some 0) ->
  sleeps_fed limit 0 (flat_map iter ds) = Some 0.
Proof.
  intros Hiter. induction ds as [|d ds IH]; [reflexivity|].
  cbn [flat_map]. now rewrite sleeps_fed_app, Hiter.
Qed.

Lemma sleeps_fed_cpu_ready w a ds :
  sleeps_fed 100 0 (flat_map (cpu_ready_iter w a) ds) = Some 0.
Proof.
  apply sleeps_fed_iters. intros d unfed. unfold cpu_ready_iter.
  now destruct (cpu_ready_seen w d).
Qed.

Lemma sleeps_fed_application w a ds :
  sleeps_fed 100 0 (flat_map (application_iter w a) ds) = Some 0.
Proof.
  apply sleeps_fed_iters. intros d unfed. unfold application_iter.
  now destruct (application_seen w d).
Qed.

Lemma sleeps_fed_result w a ds :
  sleeps_fed 100 0 (flat_map (result_iter w a) ds) = Some 0.
Proof.
  apply sleeps_fed_iters. intros d unfed. unfold result_iter.
  now destruct (result_seen w d).
Qed.

Ltac fed_simpl :=
  unfold measurement_prelude;
  repeat (cbn [sleeps_fed app];
          first [ rewrite sleeps_fed_app
                | rewrite sleeps_fed_cpu_ready
                | rewrite sleeps_fed_application
                | rewrite sleeps_fed_result ]);
  cbn [sleeps_fed app].

Lemma sleeps_fed_measurement self w a out evs :
  measurement_run self w a out evs -> sleeps_fed 100 0 evs = Some 0.
Proof.
  intros [ds1 P1 | ds1 dint P1 Hbuf | ds1 dint buf ds2 P1 Hbuf P2
          | ds1 dint buf ds2 raw hi lo rel st P1 Hbuf P2 Hdec].
  - now fed_simpl.
  - now fed_simpl.
  - now fed_simpl.
  - destruct (debug self); now fed_simpl.
Qed.

Lemma sleeps_fed_calibration_wait w a start n out evs :
  calibration_wait_run w a start n out evs ->
  forall unfed, 0 <= unfed <= 50 ->
    exists rest, sleeps_fed 50 unfed evs = Some rest /\ 0 <= rest <= 50.
Proof.
  intros H.
  induction H as [n now Hnow | n now d blob Hnow Hd
                  | n now d out evs Hnow Hd Hrest IH | now Hnow];
    intros unfed Hu.
  - exists unfed. auto.
  - exists 10. split; [reflexivity | lia].
  - unfold calibration_poll. cbn [app sleeps_fed].
    change (0 + 50 <=? 50) with true. cbv iota. apply IH. lia.
  - exists unfed. auto.
Qed.

(** X10. The watchdog is fed around the sleeps.  Between two feeds
    [initialize] and [get_measurement] never sleep more than 100 ms in
    all, and they end, however they end, with the watchdog fed since the
    last sleep; [perform_calibration] never sleeps more than 50 ms between
    two feeds, and ends with at most 50 ms slept since the last feed. *)
Theorem watchdog_is_fed_around_sleeps :
  forall self fuel w t a,
    Py.int0 (address self) = Some a ->
    (500 <= fuel)%nat ->
    sleeps_fed 100 0 (snd (initialize self fuel w t)) = Some 0 /\
    sleeps_fed 100 0 (snd (get_measurement self fuel w t)) = Some 0 /\
    exists rest,
      sleeps_fed 50 0 (snd (perform_calibration self fuel w t)) = Some rest /\
      0 <= rest <= 50.
Proof.
  intros self fuel w t a Ha Hfuel. split; [| split].
  - destruct (existsb (Z.eqb a) (i2c_scan w t)) eqn:Hscan.
    + destruct (initialize_present self w a Ha fuel t) as [ds [b [Hrun _]]];
        [lia | exact Hscan |].
      rewrite Hrun. cbn [snd]. destruct b; now fed_simpl.
    + now rewrite (initialize_absent self w a Ha fuel t Hscan).
  - destruct (get_measurement_run self w a Ha fuel t Hfuel)
      as [out [evs [Hrun Hcase]]].
    rewrite Hrun. cbn [snd]. exact (sleeps_fed_measurement _ _ _ _ _ Hcase).
  - pose proof (perform_calibration_runs self w a Ha fuel t) as Hrun.
    destruct Hrun as [dint Hbuf | dint buf start out evs Hbuf Hwait].
    + exists 0. split; [reflexivity | lia].
    + cbn [app sleeps_fed].
      apply (sleeps_fed_calibration_wait _ _ _ _ _ _ Hwait). lia.
Qed.

Lemma watchdog_is_fed_around_sleeps_witness :
  let self := Mock.tmf8805_instance in
  let w := Mock.device Mock.DATA_AVAILABLE_TIMEOUT in
  sleeps_fed 100 0 (snd (initialize self 500 w [])) = Some 0 /\
  sleeps_fed 100 0 (snd (get_measurement self 500 w [])) = Some 0 /\
  exists rest,
    sleeps_fed 50 0 (snd (perform_calibration self 500 w [])) = Some rest /\
    0 <= rest <= 50.
Proof.
  apply (watchdog_is_fed_around_sleeps Mock.tmf8805_instance 500
           (Mock.device Mock.DATA_AVAILABLE_TIMEOUT) [] 65).
  - reflexivity.
  - lia.
Defined.

(** ** What a measurement writes and reads *)




(** ** The interrupt bit *)

Lemma interrupt_payload_bit0 (v : byte) :
  let m := Z.lor (Z_of_byte v) 1 in
  match interrupt_payload m with
  | Some buf =>
      exists wb, buf = [wb] /\ Z.testbit (Z_of_byte wb) 0 = true /\
                 (Z_of_byte v <= 9 -> Z_of_byte wb = m)
  | None => True
  end.
Proof.
  destruct v; cbv zeta;
    match goal with
    | |- match interrupt_payload ?m with _ => _ end =>
        let p := eval vm_compute in (interrupt_payload m) in
        change (interrupt_payload m) with p; cbv iota
    end;
    try exact I;
    match goal with
    | |- exists wb, [?b] = [wb] /\ _ =>
        exists b; split; [reflexivity | split; [reflexivity|]]
    end;
    vm_compute; intros H; first [reflexivity | now elim H].
Qed.

(** X12. Whenever [enable_interrupt] or [clear_interrupt_flag] does write,
    having read one byte [v] from the interrupt-status register, it writes
    one byte whose bit 0 is set: reading the decimal string as hexadecimal
    spares the interrupt bit.  For [v <= 9] the byte written is [v | 1]
    itself. *)
Theorem interrupt_bit_is_always_written :
  forall self w t a (v : byte),
    Py.int0 (address self) = Some a ->
    i2c_readfrom_mem w t a 225 1 = [v] ->
    (fst (enable_interrupt self w t) = Ok tt ->
     exists wb,
       snd (enable_interrupt self w t)
         = [ERead a 225 1 [v]; EWrite a 226 [wb]] /\
       Z.testbit (Z_of_byte wb) 0 = true /\
       (Z_of_byte v <= 9 -> Z_of_byte wb = Z.lor (Z_of_byte v) 1)) /\
    (fst (clear_interrupt_flag self w t) = Ok tt ->
     exists wb,
       snd (clear_interrupt_flag self w t)
         = [ERead a 225 1 [v]; EWrite a 225 [wb]] /\
       Z.testbit (Z_of_byte wb) 0 = true /\
       (Z_of_byte v <= 9 -> Z_of_byte wb = Z.lor (Z_of_byte v) 1)).
Proof.
  intros self w t a v Ha Hread.
  pose proof (interrupt_payload_bit0 v) as Hp. cbv zeta in Hp.
  pose proof (enable_interrupt_cases self w a Ha t) as He.
  pose proof (clear_interrupt_flag_cases self w a Ha t) as Hc.
  cbv zeta in He, Hc. rewrite Hread in He, Hc.
  unfold interrupt_value in He, Hc. rewrite from_bytes_single in He, Hc.
  fold (interrupt_payload (Z.lor (Z_of_byte v) 1)) in He, Hc.
  split; intros Hok.
  - destruct He as [[buf [Hb He]] | [_ He]];
      [| rewrite He in Hok; discriminate].
    rewrite Hb in Hp. destruct Hp as [wb [-> Hwb]].
    exists wb. rewrite He. split; [reflexivity | exact Hwb].
  - destruct Hc as [[buf [Hb Hc]] | [_ Hc]];
      [| rewrite Hc in Hok; discriminate].
    rewrite Hb in Hp. destruct Hp as [wb [-> Hwb]].
    exists wb. rewrite Hc. split; [reflexivity | exact Hwb].
Qed.

Lemma interrupt_bit_is_always_written_witness :
  let self := Mock.tmf8805_instance in
  let w := Mock.device_with_interrupt_status x17 in
  (fst (enable_interrupt self w []) = Ok tt ->
   exists wb,
     snd (enable_interrupt self w [])
       = [ERead 65 225 1 [x17]; EWrite 65 226 [wb]] /\
     Z.testbit (Z_of_byte wb) 0 = true /\
     (Z_of_byte x17 <= 9 -> Z_of_byte wb = Z.lor (Z_of_byte x17) 1)) /\
  (fst (clear_interrupt_flag self w []) = Ok tt ->
   exists wb,
     snd (clear_interrupt_flag self w [])
       = [ERead 65 225 1 [x17]; EWrite 65 225 [wb]] /\
     Z.testbit (Z_of_byte wb) 0 = true /\
     (Z_of_byte x17 <= 9 -> Z_of_byte wb = Z.lor (Z_of_byte x17) 1)).
Proof.
  apply (interrupt_bit_is_always_written Mock.tmf8805_instance
           (Mock.device_with_interrupt_status x17) [] 65 x17);
    reflexivity.
Defined.

(** ** perform_calibration with a clock that advances *)

Lemma slept_ms_calibration_poll w a now d :
  slept_ms (calibration_poll w a now d) = 50.
Proof. reflexivity. Qed.

Section CalibrationEnds.

Variables (self : TMF8805) (w : World) (a : Z).
Hypothesis address_ok : Py.int0 (address self) = Some a.
Hypothesis clock : clock_advances w.

Variable t1 : trace.

Lemma calibration_wait_ends : forall n u j,
  0 <= j <= 600 ->
  50 * j <= slept_ms u ->
  600 <= j + Z.of_nat n ->
  let r := calibration_wait self n (utime_time w t1) w (t1 ++ u) in
  fst r <> OutOfFuel /\
  Z.of_nat (List.length (reads_of 30 (snd r))) + j <= 600.
Proof.
  induction n as [|n IH]; intros u j Hj Hslept Hn; cbv zeta.
  - assert (j = 600) by lia. subst j.
    assert (Hs : 30 <= slept_ms u / 1000)
      by (apply Z.div_le_lower_bound; lia).
    pose proof (clock t1 u) as Hc.
    rewrite (calibration_wait_zero self w). cbv zeta.
    replace (utime_time w (t1 ++ u) - utime_time w t1 <? 30) with false
      by (symmetry; apply Z.ltb_ge; lia).
    cbn. split; [discriminate | lia].
  - rewrite (calibration_wait_succ self w a address_ok). cbv zeta.
    pose proof (clock t1 u) as Hc.
    destruct (utime_time w (t1 ++ u) - utime_time w t1 <? 30) eqn:E.
    2:{ cbn. split; [discriminate | lia]. }
    apply Z.ltb_lt in E.
    assert (Hlt : j < 600).
    { destruct (Z_lt_ge_dec j 600) as [Hl | Hg]; [exact Hl|].
      assert (30 <= slept_ms u / 1000)
        by (apply Z.div_le_lower_bound; lia).
      lia. }
    match goal with
    | |- context [?v =? 10] => destruct (v =? 10)
    end.
    + cbn [fst snd]. split; [discriminate|].
      unfold calibration_poll. cbn [app]. rewrite !reads_of_cons.
      cbn [Z.eqb Pos.eqb app List.length reads_of flat_map]. lia.
    + cbn [fst snd]. rewrite <- app_assoc.
      match goal with
      | |- context [calibration_wait self n _ w (t1 ++ ?u')] =>
          destruct (IH u' (j + 1)) as [Hout Hreads]
      end.
      * lia.
      * rewrite slept_ms_app, slept_ms_calibration_poll. lia.
      * lia.
      * split; [exact Hout|].
        rewrite reads_of_app.
        match goal with
        | |- context [reads_of 30 (calibration_poll w a ?now ?d)] =>
            change (reads_of 30 (calibration_poll w a now d)) with [d]
        end.
        cbn [app List.length]. lia.
Qed.

Lemma perform_calibration_unfold fuel t :
  (exists dint,
      interrupt_payload (interrupt_value w dint) = None /\
      perform_calibration self fuel w t =
        (Raise ValueError, [EFeed; ERead a 225 1 dint])) \/
  (exists dint buf t0,
      let start := utime_time w t0 in
      let rest := calibration_wait self fuel start w (t0 ++ [ETime start]) in
      perform_calibration self fuel w t =
        (fst rest,
         [EFeed; ERead a 225 1 dint; EWrite a 226 buf; EWrite a 16 [x0a];
          ETime start] ++ snd rest)).
Proof.
  destruct (enable_interrupt_cases self w a address_ok (t ++ [EFeed]))
    as [[buf [Hbuf Hint]] | [Hbuf Hint]].
  - right.
    set (dint := i2c_readfrom_mem w (t ++ [EFeed]) a 225 1) in *.
    exists dint, buf,
      (((t ++ [EFeed]) ++ [ERead a 225 1 dint; EWrite a 226 buf])
       ++ [EWrite a 16 [x0a]]).
    cbv zeta. unfold perform_calibration.
    erewrite bind_run; [| reflexivity |].
    2:{ erewrite bind_run; [| exact Hint |].
        2:{ erewrite bind_run;
              [| apply (write_bytes_run self w a address_ok _ _ 16 [x0a]);
                 reflexivity |].
            2:{ erewrite bind_run; [| reflexivity |].
                2:{ apply surjective_pairing. }
                reflexivity. }
            reflexivity. }
        reflexivity. }
    reflexivity.
  - left.
    exists (i2c_readfrom_mem w (t ++ [EFeed]) a 225 1).
    split; [exact Hbuf|].
    unfold perform_calibration.
    erewrite bind_run; [| reflexivity |].
    2:{ apply bind_raise. exact Hint. }
    reflexivity.
Qed.

End CalibrationEnds.

(** X13. With a clock on which whole seconds slept show, and an allowance
    of at least 600 turns, [perform_calibration] ends by itself, whatever
    the sensor answers: it returns, or raises in [enable_interrupt], after
    at most 600 polls of the register-contents register. *)
Theorem perform_calibration_ends :
  forall self fuel w t a,
    Py.int0 (address self) = Some a ->
    clock_advances w ->
    (600 <= fuel)%nat ->
    fst (perform_calibration self fuel w t) <> OutOfFuel /\
    (List.length (reads_of 30 (snd (perform_calibration self fuel w t)))
     <= 600)%nat.
Proof.
  intros self fuel w t a Ha Hclock Hfuel.
  destruct (perform_calibration_unfold self w a Ha fuel t)
    as [[dint [_ Hrun]] | [dint [buf [t0 Hrun]]]];
    cbv zeta in Hrun; rewrite Hrun; cbn [fst snd].
  - split; [discriminate | cbn; lia].
  - destruct (calibration_wait_ends self w a Ha Hclock t0 fuel
                [ETime (utime_time w t0)] 0) as [Hout Hreads];
      [lia | cbn; lia | lia |].
    cbv zeta in Hout, Hreads. split; [exact Hout|].
    cbn [app]. rewrite !reads_of_cons. cbn [Z.eqb Pos.eqb app]. lia.
Qed.

Lemma div_1000_superadditive x y : x / 1000 + y / 1000 <= (x + y) / 1000.
Proof.
  apply Z.div_le_lower_bound; [lia|].
  pose proof (Z.mul_div_le x 1000 ltac:(lia)).
  pose proof (Z.mul_div_le y 1000 ltac:(lia)). lia.
Qed.

(** The clock of the fixtures advances with the sleeps. *)
Lemma mock_clock_advances c : clock_advances (Mock.world c).
Proof.
  intros t1 t2. cbn [utime_time Mock.world].
  change Mock.slept with slept_ms. rewrite slept_ms_app.
  apply div_1000_superadditive.
Qed.

Lemma perform_calibration_ends_witness :
  let self := Mock.tmf8805_instance in
  let w := Mock.world Mock.CORRECT_MEASUREMENT in
  fst (perform_calibration self 600 w []) <> OutOfFuel /\
  (List.length (reads_of 30 (snd (perform_calibration self 600 w [])))
   <= 600)%nat.
Proof.
  apply (perform_calibration_ends Mock.tmf8805_instance 600
           (Mock.world Mock.CORRECT_MEASUREMENT) [] 65).
  - reflexivity.
  - apply mock_clock_advances.
  - lia.
Defined.

(** ** More on the result-info decoding *)

(** X14. The decoding loses nothing and mirrors the fields: from the
    decoded reliability and status the byte is rebuilt by mirroring the
    six bits of the one into bits 0-5 and the two bits of the other into
    bits 6-7.  The decoded reliability is therefore the register's
    low-order field [b mod 64] itself only when that field reads the same
    in both directions, and likewise the status and [b / 64]. *)
Theorem decoding_mirrors_the_register_fields :
  forall b : byte,
    match decode_result_info (Z_of_byte b) with
    | Some (reliabilty, status) =>
        result_info_of reliabilty status = Z_of_byte b /\
        (reliabilty =? Z_of_byte b mod 64) =
          (Bool.eqb (Z.testbit (Z_of_byte b) 0) (Z.testbit (Z_of_byte b) 5)
           && Bool.eqb (Z.testbit (Z_of_byte b) 1) (Z.testbit (Z_of_byte b) 4)
           && Bool.eqb (Z.testbit (Z_of_byte b) 2) (Z.testbit (Z_of_byte b) 3)) /\
        (status =? Z_of_byte b / 64) =
          Bool.eqb (Z.testbit (Z_of_byte b) 6) (Z.testbit (Z_of_byte b) 7)
    | None => False
    end.
Proof. destruct b; vm_compute; repeat split. Qed.

(** The register value 1, reliability 1 in the register's own bit order,
    is decoded as reliability 32. *)
Example decode_result_info_1 : decode_result_info 1 = Some (32, 0).
Proof. reflexivity. Qed.

Lemma digits_acc_bound s : forall acc v,
  0 <= acc ->
  Py.digits_acc 2 s acc = Some v ->
  acc * 2 ^ Z.of_nat (String.length s) <= v
  < (acc + 1) * 2 ^ Z.of_nat (String.length s).
Proof.
  induction s as [|c s IH]; intros acc v Hacc; cbn [Py.digits_acc String.length].
  - intros H. injection H as <-. cbn. lia.
  - destruct (Py.digit_value c) as [d|] eqn:Hd; [| discriminate].
    apply digit_value_range in Hd.
    destruct (Z.ltb_spec d 2) as [Hd2 | Hd2]; [| discriminate].
    intros H. apply IH in H; [| lia].
    rewrite Nat2Z.inj_succ, Z.pow_succ_r by lia.
    assert (0 < 2 ^ Z.of_nat (String.length s)) by (apply Z.pow_pos_nonneg; lia).
    nia.
Qed.

(** [int(s, 2)] of a string of [n] characters is below [2^n]. *)
Lemma int2_bound s v :
  Py.int2 s = Some v -> 0 <= v < 2 ^ Z.of_nat (String.length s).
Proof.
  assert (Hd : forall s' v', Py.digits 2 s' = Some v' ->
                 0 <= v' < 2 ^ Z.of_nat (String.length s')).
  { intros s' v' H. destruct s' as [|c s']; [discriminate|].
    apply digits_acc_bound in H; lia. }
  assert (Hmono : forall s' c1 c2 v',
            Py.digits 2 s' = Some v' ->
            0 <= v' < 2 ^ Z.of_nat (String.length (String c1 (String c2 s')))).
  { intros s' c1 c2 v' H. apply Hd in H. cbn [String.length].
    rewrite !Nat2Z.inj_succ, !Z.pow_succ_r by lia. lia. }
  unfold Py.int2.
  repeat match goal with
         | |- context [match ?x with _ => _ end] => destruct x
         end;
    solve [apply Hd | apply Hmono].
Qed.

(** X15. Whatever the bus answers to the read of the result-info register,
    one byte or more, the decoding does not raise, and yields a
    reliability below 64 and a status below 4. *)
Theorem decoding_never_raises :
  forall (answer : bytes) (order : Py.byteorder),
    exists reliabilty status,
      decode_result_info (Py.from_bytes answer order)
        = Some (reliabilty, status) /\
      0 <= reliabilty < 64 /\ 0 <= status < 4.
Proof.
  intros answer order.
  destruct (decode_result_info_total (Py.from_bytes answer order))
    as [rel [st Hdec]]; [apply from_bytes_nonneg|].
  exists rel, st. split; [exact Hdec|].
  unfold decode_result_info in Hdec. cbv zeta in Hdec.
  match type of Hdec with
  | match Py.int2 (Py.slice 0 6 ?p) with _ => _ end = _ =>
      destruct (Py.int2 (Py.slice 0 6 p)) as [r|] eqn:Hr; [| discriminate];
      destruct (Py.int2 (Py.slice 6 8 p)) as [s|] eqn:Hs; [| discriminate]
  end.
  injection Hdec as <- <-.
  apply int2_bound in Hr. apply int2_bound in Hs.
  unfold Py.slice in Hr, Hs. rewrite length_take in Hr, Hs.
  assert (Hp : forall n m, (n <= m)%nat -> 2 ^ Z.of_nat n <= 2 ^ Z.of_nat m)
    by (intros; apply Z.pow_le_mono_r; lia).
  match type of Hr with
  | _ <= _ < 2 ^ Z.of_nat (Nat.min ?a ?l) =>
      pose proof (Hp _ _ (Nat.le_min_l a l)) as H6
  end.
  match type of Hs with
  | _ <= _ < 2 ^ Z.of_nat (Nat.min ?a ?l) =>
      pose proof (Hp _ _ (Nat.le_min_l a l)) as H2
  end.
  change (2 ^ Z.of_nat (6 - 0)) with 64 in H6.
  change (2 ^ Z.of_nat (8 - 6)) with 4 in H2.
  lia.
Qed.

(** ** main.py *)

(** Every run of [get_measurement] starts by loading the measurement
    application. *)
Lemma measurement_run_starts self w a out evs :
  measurement_run self w a out evs ->
  exists rest, evs = EWrite a 2 [xc0] :: rest.
Proof.
  intros R. destruct R; unfold measurement_prelude; cbn [app];
    eexists; reflexivity.
Qed.

(** X16. The loop of main.py does not look at what [initialize] returned:
    in a round that finds no device at the address, the scan and the
    diagnostic are followed by a whole [get_measurement], which starts by
    writing to that address; and the round prints what the measurement
    returned, [Distance: Falsemm] when it failed, unless the measurement
    raised. *)
Theorem main_iteration_measures_without_a_device :
  forall self fuel w t a,
    (500 <= fuel)%nat ->
    Py.int0 (address self) = Some a ->
    existsb (Z.eqb a) (i2c_scan w t) = false ->
    exists out evs rest,
      measurement_run self w a out evs /\
      evs = EWrite a 2 [xc0] :: rest /\
      main_iteration self fuel w t =
        (match out with
         | Ok _ => Ok tt
         | Raise e => Raise e
         | OutOfFuel => OutOfFuel
         end,
         [EScan (i2c_scan w t); EPrint not_connected_message] ++ evs
         ++ match out with
            | Ok m =>
                [EPrint ("Distance: " ++ measurement_str m ++ "mm")%string]
            | _ => []
            end).
Proof.
  intros self fuel w t a Hfuel Ha Hscan.
  destruct (get_measurement_run self w a Ha fuel
              (t ++ [EScan (i2c_scan w t); EPrint not_connected_message])
              Hfuel) as [out [evs [Hrun Hcase]]].
  destruct (measurement_run_starts _ _ _ _ _ Hcase) as [rest Hrest].
  exists out, evs, rest. split; [exact Hcase|]. split; [exact Hrest|].
  unfold main_iteration.
  destruct out as [m | e |].
  - erewrite bind_run; [| apply (initialize_absent self w a Ha); exact Hscan |].
    2:{ erewrite bind_run; [| exact Hrun | reflexivity]. reflexivity. }
    reflexivity.
  - erewrite bind_run; [| apply (initialize_absent self w a Ha); exact Hscan |].
    2:{ apply bind_raise. exact Hrun. }
    now rewrite app_nil_r.
  - inversion Hcase.
Qed.

Lemma main_iteration_measures_without_a_device_witness :
  exists out evs rest,
    measurement_run main_instance (Mock.world Mock.NOT_CONNECTED) 65 out evs /\
    evs = EWrite 65 2 [xc0] :: rest /\
    main_iteration main_instance 500 (Mock.world Mock.NOT_CONNECTED) [] =
      (match out with
       | Ok _ => Ok tt
       | Raise e => Raise e
       | OutOfFuel => OutOfFuel
       end,
       [EScan (i2c_scan (Mock.world Mock.NOT_CONNECTED) []);
        EPrint not_connected_message] ++ evs
       ++ match out with
          | Ok m =>
              [EPrint ("Distance: " ++ measurement_str m ++ "mm")%string]
          | _ => []
          end).
Proof.
  apply (main_iteration_measures_without_a_device
           main_instance 500%nat (Mock.world Mock.NOT_CONNECTED) [] 65).
  - lia.
  - reflexivity.
  - reflexivity.
Defined.
